(** * Event Registry article fetcher: pagination, retry and label flattening

    A shallow embedding of [get_articles_to_csv.py]: the date-range resolver
    [compute_dates], the retrying transport [request_page], the label
    normalizer nested in [extract_tags], and the pagination loop of [main].

    Python values coming out of [resp.json()] are modelled by the type [json];
    the HTTP endpoint is an oracle answering the n-th POST of a run; sleeping,
    the rows handed to the CSV writer and the two output streams are fields of
    an explicit program state. *)

From Stdlib Require Import ZArith QArith List String Ascii Bool Lia DecimalString.
Import ListNotations.

Local Open Scope string_scope.
Local Open Scope list_scope.
Local Open Scope Z_scope.

Set Warnings "-register-all".

(** ** Python values *)

(** What [json.loads] builds.  A dict is the list of its items in insertion
    order (the order [dict.values()] iterates in); [dict_get] takes the first
    item with the key.  A float is only ever tested for zero, never computed
    with, so a rational stands for it. *)
Inductive json : Type :=
| JNull
| JBool (b : bool)
| JInt (z : Z)
| JFloat (q : Q)
| JStr (s : string)
| JList (l : list json)
| JDict (d : list (string * json)).

(** Python truth value: [None], [False], zero, and empty containers are falsy. *)
Definition truthy (v : json) : bool :=
  match v with
  | JNull => false
  | JBool b => b
  | JInt z => negb (z =? 0)
  | JFloat q => negb (Qeq_bool q 0)
  | JStr s => negb (String.eqb s "")
  | JList l => match l with [] => false | _ :: _ => true end
  | JDict d => match d with [] => false | _ :: _ => true end
  end.

(** [a or b] *)
Definition py_or (a b : json) : json := if truthy a then a else b.

(** [isinstance(v, str)] *)
Definition is_str (v : json) : bool :=
  match v with JStr _ => true | _ => false end.

(** [d.get(k)] on a dict: the value, or [None] when the key is absent. *)
Fixpoint dict_get (d : list (string * json)) (k : string) : json :=
  match d with
  | [] => JNull
  | (k', v) :: rest => if String.eqb k' k then v else dict_get rest k
  end.

(** [next(iter(d.values()))], with [StopIteration] turned into [None] as the
    source does. *)
Definition first_value (d : list (string * json)) : json :=
  match d with
  | [] => JNull
  | (_, v) :: _ => v
  end.

(** [str(n)] for an int. *)
Definition str_of_Z (z : Z) : string := NilZero.string_of_int (Z.to_int z).

(** ** Exceptions *)

Inductive exn : Type :=
| RequestException (e : string)
| RuntimeError (msg : string)
| AttributeError
| TypeError
| OverflowError
| SystemExit (code : Z).

Inductive result (A : Type) : Type :=
| Ok (a : A)
| Raise (e : exn).
Arguments Ok {A} a.
Arguments Raise {A} e.

Definition rbind {A B : Type} (r : result A) (k : A -> result B) : result B :=
  match r with
  | Ok a => k a
  | Raise e => Raise e
  end.

Notation "x <- r ;; k" := (rbind r (fun x => k))
  (at level 61, r at next level, right associativity).

(** [v.get(k)]: only a dict has the method. *)
Definition py_get (v : json) (k : string) : result json :=
  match v with
  | JDict d => Ok (dict_get d k)
  | _ => Raise AttributeError
  end.

(** What a [for] loop iterates over: the elements of a list, the characters
    of a string, the keys of a dict; anything else is not iterable. *)
Definition py_iter (v : json) : result (list json) :=
  match v with
  | JList l => Ok l
  | JStr s => Ok (map (fun c => JStr (String c EmptyString)) (list_ascii_of_string s))
  | JDict d => Ok (map (fun kv => JStr (fst kv)) d)
  | _ => Raise TypeError
  end.

(** ** HTTP *)

Record response : Type := mkResponse {
  status_code : Z;
  text : string;
  (** [resp.json()]: [None] when it raises [ValueError] *)
  body_json : option json
}.

(** One call of [session.post]. *)
Inductive outcome : Type :=
| Failed (e : string)        (* raised requests.RequestException *)
| Responded (r : response).

(** [status in (429, 500, 502, 503, 504)] *)
Definition retryable_status (status : Z) : bool :=
  (status =? 429) || (status =? 500) || (status =? 502) || (status =? 503) || (status =? 504).

(** [f"HTTP {resp.status_code}: {resp.text}"] *)
Definition http_message (r : response) : string :=
  ("HTTP " ++ str_of_Z (status_code r) ++ ": " ++ text r)%string.

(** [range(n)] *)
Definition range (n : Z) : list Z := map Z.of_nat (seq 0 (Z.to_nat n)).

(** ** Program state *)

Definition row : Type := list json.

Record state : Type := mkState {
  posts : nat;            (* calls of session.post made so far *)
  fetches : nat;          (* calls of request_page made so far *)
  slept : list Q;         (* arguments of time.sleep, oldest first *)
  rows : list row;        (* rows given to the csv writer, oldest first *)
  stderr : list string;
  stdout : list string
}.

Definition initial : state := mkState 0 0 [] [] [] [].

Definition count_post (s : state) : state :=
  mkState (S (posts s)) (fetches s) (slept s) (rows s) (stderr s) (stdout s).

Definition count_fetch (s : state) : state :=
  mkState (posts s) (S (fetches s)) (slept s) (rows s) (stderr s) (stdout s).

Definition sleep (d : Q) (s : state) : state :=
  mkState (posts s) (fetches s) (slept s ++ [d]) (rows s) (stderr s) (stdout s).

Definition writerow (r : row) (s : state) : state :=
  mkState (posts s) (fetches s) (slept s) (rows s ++ [r]) (stderr s) (stdout s).

Definition print_err (msg : string) (s : state) : state :=
  mkState (posts s) (fetches s) (slept s) (rows s) (stderr s ++ [msg]) (stdout s).

Definition print_out (msg : string) (s : state) : state :=
  mkState (posts s) (fetches s) (slept s) (rows s) (stderr s) (stdout s ++ [msg]).

(** ** Configuration: the fields of [argparse.Namespace] the core reads *)

Record Args : Type := mkArgs {
  api_key : option string;
  output : string;
  days : Z;
  date_start : option string;
  date_end : option string;
  lang : string;
  articles_count : Z;
  max_pages : Z;
  page_delay : Q
}.

(** Truth value of an [Optional[str]]. *)
Definition given (o : option string) : bool :=
  match o with
  | Some s => negb (String.eqb s "")
  | None => false
  end.

(** The header row of the CSV file. *)
Definition header : row :=
  [JStr "Headline"; JStr "Link URL"; JStr "Outlet"; JStr "Text"; JStr "Tags/keywords"].

(** [math.ceil(a / b)] for a positive [b].  Python divides in floating point;
    the quotient and its ceiling are exact while [|a|] stays below [2^53]. *)
Definition ceil_div (a b : Z) : Z := - ((- a) / b).

(** Limits of the [datetime] module: [timedelta.max.days] and the ordinal of
    [date.min]. *)
Definition timedelta_max_days : Z := 999999999.
Definition date_min : Z := 1.

(** [isinstance(v, int)]: an int, or a bool, which Python counts as one. *)
Definition as_int (v : json) : option Z :=
  match v with
  | JInt z => Some z
  | JBool b => Some (if b then 1 else 0)
  | _ => None
  end.

(** ** Strings and dicts of the request builder *)

(** [str.isspace] for a character below U+0100, the characters a [string]
    holds here: tab to carriage return, the four separators U+001C to U+001F,
    the space, U+0085 and U+00A0. *)
Definition is_space (c : ascii) : bool :=
  let n := nat_of_ascii c in
  ((9 <=? n) && (n <=? 13) || (28 <=? n) && (n <=? 32) || (n =? 133) || (n =? 160))%nat.

Fixpoint lstrip (s : string) : string :=
  match s with
  | EmptyString => EmptyString
  | String c rest => if is_space c then lstrip rest else s
  end.

Fixpoint rstrip (s : string) : string :=
  match s with
  | EmptyString => EmptyString
  | String c rest =>
      match rstrip rest with
      | EmptyString => if is_space c then EmptyString else String c EmptyString
      | kept => String c kept
      end
  end.

(** [s.strip()] *)
Definition strip (s : string) : string := rstrip (lstrip s).

(** [s.split(sep)] for a separator of one character: one piece more than
    there are separators, empty pieces included. *)
Fixpoint split (sep : ascii) (s : string) : list string :=
  match s with
  | EmptyString => [EmptyString]
  | String c rest =>
      if Ascii.eqb c sep then EmptyString :: split sep rest
      else match split sep rest with
           | [] => [String c EmptyString]
           | piece :: pieces => String c piece :: pieces
           end
  end.

(** [[s.strip() for s in value.split(",") if s.strip()]] *)
Definition split_filter (value : string) : list string :=
  map strip (filter (fun piece => negb (String.eqb (strip piece) "")) (split "," value)).

(** [d[k] = v]: the value of an existing key is replaced where it stands, a
    new key goes to the end. *)
Fixpoint dict_set (d : list (string * json)) (k : string) (v : json)
  : list (string * json) :=
  match d with
  | [] => [(k, v)]
  | (k', v') :: rest =>
      if String.eqb k' k then (k', v) :: rest else (k', v') :: dict_set rest k v
  end.

(** An [Optional[str]] as a Python value. *)
Definition opt_json (o : option string) : json :=
  match o with
  | Some s => JStr s
  | None => JNull
  end.

(** The fields of the namespace that only [build_payload] reads. *)
Record Filters : Type := mkFilters {
  body_len : Z;
  skip_duplicates : bool;
  keyword : option string;
  query : option string;
  source_uri : option string;
  category_uri : option string
}.

Definition build_payload (args : Args) (more : Filters) (page : Z)
  : list (string * json) :=
  let payload :=
    [("resultType", JStr "articles");
     ("articlesPage", JInt page);
     ("articlesCount", JInt (articles_count args));
     ("articlesSortBy", JStr "date");
     ("articlesSortByAsc", JBool false);
     ("articleBodyLen", JInt (body_len more));
     ("dateStart", opt_json (date_start args));
     ("dateEnd", opt_json (date_end args));
     ("includeArticleTitle", JBool true);
     ("includeArticleBasicInfo", JBool true);
     ("includeArticleBody", JBool true);
     ("includeArticleConcepts", JBool true);
     ("includeArticleCategories", JBool true);
     ("includeSourceTitle", JBool true);
     ("includeConceptLabel", JBool true);
     ("conceptLang", JStr (lang args))] in
  let payload :=
    if skip_duplicates more
    then dict_set payload "isDuplicateFilter" (JStr "skipDuplicates")
    else dict_set payload "isDuplicateFilter" (JStr "keepAll") in
  let payload :=
    if negb (String.eqb (lang args) "") then dict_set payload "lang" (JStr (lang args))
    else payload in
  let payload :=
    if given (keyword more) then dict_set payload "keyword" (opt_json (keyword more))
    else payload in
  let payload :=
    if given (query more) then dict_set payload "query" (opt_json (query more))
    else payload in
  let payload :=
    match source_uri more with
    | Some value =>
        if given (source_uri more)
        then dict_set payload "sourceUri" (JList (map JStr (split_filter value)))
        else payload
    | None => payload
    end in
  let payload :=
    match category_uri more with
    | Some value =>
        if given (category_uri more)
        then dict_set payload "categoryUri" (JList (map JStr (split_filter value)))
        else payload
    | None => payload
    end in
  payload.

(** The keys [build_payload] can set. *)
Definition payload_keys : list string :=
  ["resultType"; "articlesPage"; "articlesCount"; "articlesSortBy"; "articlesSortByAsc";
   "articleBodyLen"; "dateStart"; "dateEnd"; "includeArticleTitle";
   "includeArticleBasicInfo"; "includeArticleBody"; "includeArticleConcepts";
   "includeArticleCategories"; "includeSourceTitle"; "includeConceptLabel";
   "conceptLang"; "isDuplicateFilter"; "lang"; "keyword"; "query"; "sourceUri";
   "categoryUri"].

(** [if c: d[k] = v] *)
Definition set_when (c : bool) (k : string) (v : json) (d : list (string * json))
  : list (string * json) :=
  if c then dict_set d k v else d.

(** The list a URI filter is sent as. *)
Definition uri_list (o : option string) : json :=
  match o with
  | Some value => JList (map JStr (split_filter value))
  | None => JNull
  end.

(** The fields every payload starts from. *)
Definition payload_base (args : Args) (more : Filters) (page : Z) : list (string * json) :=
  [("resultType", JStr "articles");
   ("articlesPage", JInt page);
   ("articlesCount", JInt (articles_count args));
   ("articlesSortBy", JStr "date");
   ("articlesSortByAsc", JBool false);
   ("articleBodyLen", JInt (body_len more));
   ("dateStart", opt_json (date_start args));
   ("dateEnd", opt_json (date_end args));
   ("includeArticleTitle", JBool true);
   ("includeArticleBasicInfo", JBool true);
   ("includeArticleBody", JBool true);
   ("includeArticleConcepts", JBool true);
   ("includeArticleCategories", JBool true);
   ("includeSourceTitle", JBool true);
   ("includeConceptLabel", JBool true);
   ("conceptLang", JStr (lang args))].


(** The characters of a string. *)
Definition chars (s : string) : list ascii := list_ascii_of_string s.

(** The body [request_page] posts: [merged = dict(payload)] and
    [merged["apiKey"] = api_key]. *)
Definition merged (payload : list (string * json)) (api_key : string)
  : list (string * json) :=
  dict_set payload "apiKey" (JStr api_key).

(** ** The converter, [csv_to_excel.py] *)

Module CsvToExcel.

(** A worksheet is its title and its rows; a workbook is its worksheets. *)
Definition sheet : Type := (string * list (list string))%type.
Definition workbook : Type := list sheet.

(** [ws.append(row)] for the worksheet [ws] that [create_sheet] returned: the
    last one of the workbook. *)
Fixpoint append (wb : workbook) (r : list string) : workbook :=
  match wb with
  | [] => []
  | [(title, rs)] => [(title, rs ++ [r])]
  | ws :: rest => ws :: append rest r
  end.

(** [write_excel], as the workbook it saves.  [blank] is the workbook
    [Workbook(write_only=True)] starts from. *)
Definition write_excel (blank : workbook) (rows : list (list string))
    (headers : list string) : workbook :=
  let wb := blank ++ [("Articles", [])] in
  let wb :=
    match wb with
    | (title, _) :: rest => if String.eqb title "Sheet" then rest else wb
    | [] => wb
    end in
  fold_left append rows (append wb headers).

(** [l.index(x)]: the first position of [x], [None] for [ValueError]. *)
Fixpoint index (x : string) (l : list string) : option nat :=
  match l with
  | [] => None
  | y :: rest =>
      if String.eqb y x then Some 0%nat
      else match index x rest with
           | Some i => Some (S i)
           | None => None
           end
  end.

(** [[v for i, v in enumerate(l) if i != idx]] *)
Definition without (idx : nat) (l : list string) : list string :=
  map snd (filter (fun iv => negb (Nat.eqb (fst iv) idx)) (combine (seq 0 (List.length l)) l)).

(** The two output options of the command line. *)
Record Options : Type := mkOptions {
  output : option string;
  no_text_output : option string
}.

(** [main] on the rows [csv.reader] yields for the input file: the files
    written, in order, or [None] when [next(reader)] raises
    [StopIteration]. *)
Definition main (blank : workbook) (args : Options) (csv : list (list string))
  : option (list (string * workbook)) :=
  match csv with
  | [] => None
  | headers :: rows =>
      let text_idx := index "Text" headers in
      let full :=
        match output args with
        | Some path =>
            if given (output args) then [(path, write_excel blank rows headers)] else []
        | None => []
        end in
      let no_text :=
        match no_text_output args with
        | Some path =>
            if given (no_text_output args) then
              match text_idx with
              | Some idx =>
                  [(path, write_excel blank (map (without idx) rows) (without idx headers))]
              | None => [(path, write_excel blank rows headers)]
              end
            else []
        | None => []
        end in
      Some (full ++ no_text)
  end.

End CsvToExcel.

Section Program.

(** [repr] of a float, a list or a dict, which [str] falls back to. *)
Variable repr_other : json -> string.

(** [date.isoformat] of the day with the given proleptic Gregorian ordinal. *)
Variable isoformat : Z -> string.

(** The endpoint: the answer to the n-th POST of the run, counted from 0.
    The program is deterministic, so an endpoint whose answers depend on the
    request body is covered by the one that answers by position. *)
Variable world : nat -> outcome.

(** [str(v)] *)
Definition py_str (v : json) : string :=
  match v with
  | JStr s => s
  | JInt z => str_of_Z z
  | JBool true => "True"
  | JBool false => "False"
  | JNull => "None"
  | _ => repr_other v
  end.

(** ** Date range resolver *)

(** The branch without overrides; [today] is the ordinal of
    [datetime.now(timezone.utc).date()].  [timedelta] and the subtraction
    raise [OverflowError] outside the module's limits. *)
Definition lookback_window (today days : Z) : result (string * string) :=
  let delta := Z.max days 1 in
  if timedelta_max_days <? delta then Raise OverflowError
  else if today - delta <? date_min then Raise OverflowError
  else Ok (isoformat (today - delta), isoformat today).

Definition compute_dates (today days : Z) (date_start date_end : option string)
  : result (string * string) :=
  match date_start, date_end with
  | Some ds, Some de =>
      if given date_start && given date_end then Ok (ds, de)
      else lookback_window today days
  | _, _ => lookback_window today days
  end.

(** ** Retrying transport *)

(** The body of [for attempt in range(max_retries)], over the attempts that
    remain; [continue] is the recursive call, falling out of the loop is the
    empty list.  [backoff] is a float in the source; it only takes the values
    1, 2, 4, ..., 32, 60, which are kept in [Z]. *)
Fixpoint request_attempts (max_retries : Z) (attempts : list Z) (backoff : Z)
    (s : state) : result json * state :=
  match attempts with
  | [] => (Raise (RuntimeError "Max retries exceeded"), s)
  | attempt :: rest =>
      let s1 := count_post s in
      match world (posts s) with
      | Failed e =>
          if attempt =? max_retries - 1 then (Raise (RequestException e), s1)
          else request_attempts max_retries rest (Z.min 60 (backoff * 2))
                 (sleep (inject_Z backoff) s1)
      | Responded resp =>
          if status_code resp =? 200 then
            match body_json resp with
            | Some data => (Ok data, s1)
            | None => (Raise (RuntimeError "Invalid JSON in API response"), s1)
            end
          else if retryable_status (status_code resp) then
            if attempt =? max_retries - 1 then (Raise (RuntimeError (http_message resp)), s1)
            else request_attempts max_retries rest (Z.min 60 (backoff * 2))
                   (sleep (inject_Z backoff) s1)
          else (Raise (RuntimeError (http_message resp)), s1)
      end
  end.

Definition request_page (max_retries : Z) (s : state) : result json * state :=
  request_attempts max_retries (range max_retries) 1 (count_fetch s).

(** ** Label normalizer *)

Definition normalize_label (lang : string) (item : json) : string :=
  match item with
  | JStr s => s
  | JDict d =>
      let label_container := py_or (dict_get d "label") (JDict []) in
      let found :=
        match label_container with
        | JDict m =>
            let label := py_or (dict_get m lang) (dict_get m "eng") in
            let label :=
              if negb (truthy label) && truthy label_container then first_value m
              else label in
            if truthy label then Some (py_str label) else None
        | _ => None
        end in
      match found with
      | Some s => s
      | None =>
          if truthy (dict_get d "uri") then py_str (dict_get d "uri")
          else if truthy (dict_get d "label") && is_str (dict_get d "label")
               then py_str (dict_get d "label")
          else ""
      end
  | _ => ""
  end.

(** One of the two [for] loops of [extract_tags]: every non-empty label is
    appended to [tags]. *)
Definition append_labels (lang : string) (items : list json) (tags : list string)
  : list string :=
  fold_left
    (fun tags item =>
       let label := normalize_label lang item in
       if negb (String.eqb label "") then tags ++ [label] else tags)
    items tags.

Definition extract_tags (article : json) (lang : string) : result (list string) :=
  concepts <- py_get article "concepts" ;;
  cs <- py_iter (py_or concepts (JList [])) ;;
  let tags := append_labels lang cs [] in
  categories <- py_get article "categories" ;;
  ks <- py_iter (py_or categories (JList [])) ;;
  Ok (append_labels lang ks tags).

(** ** Pagination controller *)

(** The row [main] writes for one article. *)
Definition flat_record (lang : string) (article : json) : result row :=
  title <- py_get article "title" ;;
  url <- py_get article "url" ;;
  source <- py_get article "source" ;;
  outlet <- py_get (py_or source (JDict [])) "title" ;;
  body <- py_get article "body" ;;
  tags <- extract_tags article lang ;;
  Ok [py_or title (JStr ""); py_or url (JStr ""); py_or outlet (JStr "");
      py_or body (JStr ""); JStr (String.concat "; " tags)].

(** [for article in results: ...] *)
Fixpoint write_articles (lang : string) (articles : list json) (total_rows : Z)
    (s : state) : result Z * state :=
  match articles with
  | [] => (Ok total_rows, s)
  | article :: rest =>
      match flat_record lang article with
      | Raise e => (Raise e, s)
      | Ok r => write_articles lang rest (total_rows + 1) (writerow r s)
      end
  end.

(** [articles_section] and [results] of one page. *)
Definition page_results (data : json) : result (json * json) :=
  articles <- py_get data "articles" ;;
  let articles_section := py_or articles (JDict []) in
  results <- py_get articles_section "results" ;;
  Ok (articles_section, py_or results (JList [])).

(** [articles_section.get("totalResults") if isinstance(articles_section, dict) else None] *)
Definition total_results (articles_section : json) : json :=
  match articles_section with
  | JDict d => dict_get d "totalResults"
  | _ => JNull
  end.

Definition total_pages_of (args : Args) (articles_section : json) : option Z :=
  match as_int (total_results articles_section) with
  | Some t => if articles_count args >? 0 then Some (ceil_div t (articles_count args)) else None
  | None => None
  end.

(** The two [break] tests that end an iteration. *)
Definition should_stop (args : Args) (page : Z) (total_pages : option Z) : bool :=
  (negb (max_pages args =? 0) && (page >=? max_pages args))
  || match total_pages with
     | Some n => negb (n =? 0) && (page >=? n)
     | None => false
     end.

(** [while True: ...], run for at most [fuel] iterations; [None] when the
    loop is still running after them.  The value is [total_rows]. *)
Fixpoint pages_loop (fuel : nat) (args : Args) (page total_rows : Z) (s : state)
  : option (result Z * state) :=
  match fuel with
  | O => None
  | S fuel' =>
      match request_page 5 s with
      | (Raise e, s1) => Some (Raise e, s1)
      | (Ok data, s1) =>
          match page_results data with
          | Raise e => Some (Raise e, s1)
          | Ok (articles_section, results) =>
              if negb (truthy results) then Some (Ok total_rows, s1)
              else
                match py_iter results with
                | Raise e => Some (Raise e, s1)
                | Ok articles =>
                    match write_articles (lang args) articles total_rows s1 with
                    | (Raise e, s2) => Some (Raise e, s2)
                    | (Ok total_rows', s2) =>
                        if should_stop args page (total_pages_of args articles_section)
                        then Some (Ok total_rows', s2)
                        else
                          let s3 := if negb (Qle_bool (page_delay args) 0)
                                    then sleep (page_delay args) s2 else s2 in
                          pages_loop fuel' args (page + 1) total_rows' s3
                    end
                end
          end
      end
  end.

(** [args.date_start, args.date_end = start, end] *)
Definition with_dates (args : Args) (dates : string * string) : Args :=
  mkArgs (api_key args) (output args) (days args) (Some (fst dates)) (Some (snd dates))
    (lang args) (articles_count args) (max_pages args) (page_delay args).

(** [main], the loop run for at most [fuel] iterations.  Creating the output
    directory and opening the file are taken to succeed. *)
Definition main (args : Args) (today : Z) (fuel : nat) (s : state)
  : option (result unit * state) :=
  if negb (given (api_key args)) then
    Some (Raise (SystemExit 1),
          print_err "ERROR: Provide API key via --api-key or EVENT_REGISTRY_API_KEY env var." s)
  else
    match compute_dates today (days args) (date_start args) (date_end args) with
    | Raise e => Some (Raise e, s)
    | Ok dates =>
        let args := with_dates args dates in
        let s := if max_pages args =? 0
                 then print_err "Warning: --max-pages is 0 (unlimited). This may fetch a very large number of articles." s
                 else s in
        match pages_loop fuel args 1 0 (writerow header s) with
        | None => None
        | Some (Raise e, s') => Some (Raise e, s')
        | Some (Ok total_rows, s') =>
            Some (Ok tt, print_out ("Wrote " ++ str_of_Z total_rows ++ " rows to " ++ output args)%string s')
        end
    end.

(** ** Vocabulary of the statements *)

(** An outcome [request_page] answers with a sleep and another attempt,
    unless the attempt was the last one. *)
Definition retried (o : outcome) : bool :=
  match o with
  | Failed _ => true
  | Responded r => negb (status_code r =? 200) && retryable_status (status_code r)
  end.

(** The successive values of [backoff] over [k] retries. *)
Fixpoint backoffs (k : nat) (backoff : Z) : list Z :=
  match k with
  | O => []
  | S k' => backoff :: backoffs k' (Z.min 60 (backoff * 2))
  end.

Fixpoint backoff_after (k : nat) (backoff : Z) : Z :=
  match k with
  | O => backoff
  | S k' => backoff_after k' (Z.min 60 (backoff * 2))
  end.

(** The state after [k] attempts that were each followed by a sleep. *)
Definition after_retries (k : nat) (backoff : Z) (s : state) : state :=
  mkState (posts s + k) (fetches s) (slept s ++ map inject_Z (backoffs k backoff))
    (rows s) (stderr s) (stdout s).




(** The entries a loop of [extract_tags] visits for one key of the article. *)
Definition entries_of (d : list (string * json)) (key : string) : result (list json) :=
  py_iter (py_or (dict_get d key) (JList [])).

(** The Tags/keywords field as the specification words it. *)
Definition labels_of (lang : string) (entries : list json) : list string :=
  filter (fun label => negb (String.eqb label "")) (map (normalize_label lang) entries).

Definition tags_field (lang : string) (concepts categories : list json) : string :=
  String.concat "; " (labels_of lang (concepts ++ categories)).


Definition article_economy : json :=
  JDict [("concepts", JList [JStr "Economy"]); ("categories", JList [JStr "Business"])].

Definition article_markets : json :=
  JDict [("concepts", JList [JStr "Markets"]); ("categories", JList [])].


(** A value [v] for which [(v or {}).get(...)] works: falsy, or a dict. *)
Definition dict_or_falsy (v : json) : bool :=
  negb (truthy v) || match v with JDict _ => true | _ => false end.

(** A value [v] for which [for x in (v or [])] works: falsy, or a list, a
    string or a dict. *)
Definition iterable_or_falsy (v : json) : bool :=
  negb (truthy v)
  || match v with JList _ | JStr _ | JDict _ => true | _ => false end.

(** What every finished run of the loop satisfies. *)
Definition loop_outcome (fuel : nat) (total : Z) (s : state) (out : result Z * state) : Prop :=
  exists new,
    rows (snd out) = rows s ++ new
    /\ Forall (fun r => List.length r = 5%nat) new
    /\ (forall n, fst out = Ok n -> n = total + Z.of_nat (List.length new))
    /\ (posts (snd out) + 5 * fetches s <= posts s + 5 * fetches (snd out))%nat
    /\ (fetches s < fetches (snd out) <= fetches s + fuel)%nat
    /\ stdout (snd out) = stdout s.


(** A response with status 200 and the given payload. *)
Definition ok_response (data : json) : outcome :=
  Responded (mkResponse 200 "" (Some data)).

(** A payload with the given results and [totalResults]. *)
Definition page_with (results : list json) (total : json) : json :=
  JDict [("articles", JDict [("results", JList results); ("totalResults", total)])].

(** A payload with the given results and no [totalResults]. *)
Definition page_without_total (results : list json) : json :=
  JDict [("articles", JDict [("results", JList results)])].

(** The default configuration with an API key and no cap on the pages. *)
Definition args_unlimited : Args :=
  mkArgs (Some "key") "news_articles.csv" 60 None None "eng" 100 0 (1 # 2).

(** An endpoint that answers every request with the same one-article page
    and no total. *)
Definition world_endless : nat -> outcome :=
  fun _ => ok_response (page_without_total [article_markets]).

(** An endpoint whose first page holds one article and announces a total of
    0, and whose later pages are empty. *)
Definition world_total_zero : nat -> outcome :=
  fun n => match n with
           | O => ok_response (page_with [article_markets] (JInt 0))
           | S _ => ok_response (page_with [] (JInt 0))
           end.

(** An endpoint that fails with 503 four times and then answers. *)
Definition world_503_then_ok : nat -> outcome :=
  fun n => if (n <? 4)%nat then Responded (mkResponse 503 "Service Unavailable" None)
           else ok_response (page_with [] (JInt 0)).

(** An endpoint that always answers 503. *)
Definition world_503 : nat -> outcome :=
  fun _ => Responded (mkResponse 503 "Service Unavailable" None).

(** An endpoint that answers 404. *)
Definition world_404 : nat -> outcome :=
  fun _ => Responded (mkResponse 404 "Not Found" None).

(** An endpoint whose pages each hold one article and announce 437 results. *)
Definition world_437 : nat -> outcome :=
  fun _ => ok_response (page_with [article_markets] (JInt 437)).



(** An endpoint that cannot be reached. *)
Definition world_down : nat -> outcome :=
  fun _ => Failed "timeout".

(** An endpoint that answers with an error object. *)
Definition world_error_object : nat -> outcome :=
  fun _ => ok_response (JDict [("error", JStr "No results")]).

(** The default configuration with a cap of two pages. *)
Definition args_capped : Args :=
  mkArgs (Some "key") "news_articles.csv" 60 None None "eng" 100 2 (1 # 2).

(** The default configuration without an API key. *)
Definition args_no_key : Args :=
  mkArgs None "news_articles.csv" 60 None None "eng" 100 50 (1 # 2).


(** Stand-ins for [repr] and [date.isoformat] in the examples. *)
Definition repr_opaque : json -> string := fun _ => "<object>".
Definition iso_ordinal : Z -> string := str_of_Z.

(** * Properties *)

(** ** The retry loop *)

Lemma after_retries_step (k : nat) (backoff : Z) (s : state) :
  after_retries k (Z.min 60 (backoff * 2)) (sleep (inject_Z backoff) (count_post s))
  = after_retries (S k) backoff s.
Proof.
  unfold after_retries, sleep, count_post; simpl.
  rewrite <- app_assoc; simpl.
  f_equal; lia.
Qed.

Lemma request_attempts_retry (max_retries : Z) (k : nat) :
  forall (a n : nat) (backoff : Z) (s : state),
    (forall i, (i < k)%nat -> retried (world (posts s + i)) = true) ->
    Z.of_nat (a + k) <= max_retries - 1 ->
    request_attempts max_retries (map Z.of_nat (seq a (k + n))) backoff s
    = request_attempts max_retries (map Z.of_nat (seq (a + k) n)) (backoff_after k backoff)
        (after_retries k backoff s).
Proof.
  induction k as [|k IH]; intros a n backoff s Hw Ha.
  - rewrite Nat.add_0_r. simpl. f_equal.
    unfold after_retries; destruct s; simpl.
    rewrite Nat.add_0_r, app_nil_r. reflexivity.
  - simpl seq. simpl map. simpl request_attempts.
    assert (Hne : (Z.of_nat a =? max_retries - 1) = false) by (apply Z.eqb_neq; lia).
    assert (H0 : retried (world (posts s)) = true).
    { specialize (Hw 0%nat). rewrite Nat.add_0_r in Hw. apply Hw. lia. }
    assert (Hnext : request_attempts max_retries (map Z.of_nat (seq (S a) (k + n)))
                      (Z.min 60 (backoff * 2)) (sleep (inject_Z backoff) (count_post s))
                    = request_attempts max_retries (map Z.of_nat (seq (a + S k) n))
                        (backoff_after (S k) backoff) (after_retries (S k) backoff s)).
    { rewrite (IH (S a) n).
      - rewrite after_retries_step. simpl backoff_after.
        replace (S a + k)%nat with (a + S k)%nat by lia. reflexivity.
      - intros i Hi. simpl posts. replace (S (posts s) + i)%nat with (posts s + S i)%nat by lia.
        apply Hw. lia.
      - lia. }
    destruct (world (posts s)) as [e|resp]; simpl in H0.
    + rewrite Hne. exact Hnext.
    + apply andb_true_iff in H0. destruct H0 as [H200 Hretry].
      apply negb_true_iff in H200. rewrite H200, Hretry, Hne. exact Hnext.
Qed.

Lemma range_split (max_retries : Z) (k : nat) :
  Z.of_nat k <= max_retries ->
  range max_retries = map Z.of_nat (seq 0 (k + (Z.to_nat max_retries - k))).
Proof.
  intros Hk. unfold range. f_equal. f_equal. lia.
Qed.

(** [backoff] starts at 1, doubles, and is capped at 60. *)
Lemma backoff_after_pow (k : nat) :
  backoff_after k 1 = Z.min 60 (2 ^ Z.of_nat k).
Proof.
  assert (H : forall j b, backoff_after j (Z.min 60 b) = Z.min 60 (b * 2 ^ Z.of_nat j)).
  { induction j as [|j IH]; intros b.
    - simpl. now rewrite Z.mul_1_r.
    - simpl backoff_after.
      replace (Z.min 60 (Z.min 60 b * 2)) with (Z.min 60 (b * 2)) by lia.
      rewrite IH. rewrite Nat2Z.inj_succ, Z.pow_succ_r by lia.
      f_equal. ring. }
  change 1 with (Z.min 60 1) at 1. rewrite H. f_equal. ring.
Qed.

Lemma backoffs_nth (k : nat) :
  forall backoff, backoffs k backoff = map (fun i => backoff_after i backoff) (seq 0 k).
Proof.
  induction k as [|k IH]; intros backoff; [reflexivity|].
  simpl. f_equal. rewrite IH. rewrite <- seq_shift, map_map. reflexivity.
Qed.

Lemma backoffs_pow (k : nat) :
  backoffs k 1 = map (fun i => Z.min 60 (2 ^ i)) (range (Z.of_nat k)).
Proof.
  rewrite backoffs_nth. unfold range. rewrite Nat2Z.id, map_map.
  apply map_ext. intros i. apply backoff_after_pow.
Qed.

(** After [k] retried attempts [request_page] stands at attempt [k], which is
    not past the budget. *)
Lemma request_page_at (max_retries : Z) (k : nat) (s : state) :
  Z.of_nat k < max_retries ->
  (forall i, (i < k)%nat -> retried (world (posts s + i)) = true) ->
  exists m,
    request_page max_retries s
    = request_attempts max_retries (Z.of_nat k :: map Z.of_nat (seq (S k) m))
        (backoff_after k 1) (after_retries k 1 (count_fetch s))
    /\ Z.of_nat (k + S m) = max_retries.
Proof.
  intros Hk Hw.
  exists (Z.to_nat max_retries - S k)%nat. split; [|lia].
  unfold request_page.
  rewrite (range_split max_retries k) by lia.
  rewrite (request_attempts_retry max_retries k 0) by (simpl; auto; lia).
  replace (Z.to_nat max_retries - k)%nat with (S (Z.to_nat max_retries - S k)) by lia.
  reflexivity.
Qed.

Lemma retryable_not_200 (status : Z) :
  retryable_status status = true -> (status =? 200) = false.
Proof.
  unfold retryable_status. intros H.
  repeat (apply orb_true_iff in H; destruct H as [H|H]);
    apply Z.eqb_eq in H; subst; reflexivity.
Qed.

Lemma request_page_success_after (max_retries : Z) (k : nat) (s : state) (data : json) :
  Z.of_nat k < max_retries ->
  (forall i, (i < k)%nat -> retried (world (posts s + i)) = true) ->
  (exists r, world (posts s + k) = Responded r /\ status_code r = 200 /\ body_json r = Some data) ->
  request_page max_retries s = (Ok data, count_post (after_retries k 1 (count_fetch s))).
Proof.
  intros Hk Hw (r & Hr & H200 & Hjson).
  destruct (request_page_at max_retries k s Hk Hw) as (m & -> & _).
  simpl. rewrite Hr, H200, Hjson. reflexivity.
Qed.

(** C2: with the default budget of 5, HTTP 503 on attempts 1 to 4 and a
    parseable HTTP 200 on attempt 5 give the parsed payload after 5 POSTs and
    exactly the sleeps 1, 2, 4, 8; in general the i-th sleep of a call lasts
    [min 60 (2^i)], the backoff starting at 1, doubling after each retry and
    capped at 60. *)
Theorem request_page_503_four_times_then_200 (s : state) (data : json) :
  (forall i, (i < 4)%nat ->
     exists r, world (posts s + i) = Responded r /\ status_code r = 503) ->
  (exists r, world (posts s + 4) = Responded r /\ status_code r = 200
             /\ body_json r = Some data) ->
  request_page 5 s
  = (Ok data,
     mkState (posts s + 5) (S (fetches s)) (slept s ++ [1; 2; 4; 8]%Q)
       (rows s) (stderr s) (stdout s))
  /\ (forall (max_retries : Z) (k : nat) (s0 : state) (data0 : json),
        Z.of_nat k < max_retries ->
        (forall i, (i < k)%nat -> retried (world (posts s0 + i)) = true) ->
        (exists r, world (posts s0 + k) = Responded r /\ status_code r = 200
                   /\ body_json r = Some data0) ->
        fst (request_page max_retries s0) = Ok data0
        /\ slept (snd (request_page max_retries s0))
           = slept s0 ++ map (fun i => inject_Z (Z.min 60 (2 ^ i))) (range (Z.of_nat k))).
Proof.
  intros H503 H200. split.
  - rewrite (request_page_success_after 5 4 s data); [| lia | | exact H200].
    + unfold count_post, after_retries, count_fetch; simpl.
      f_equal. f_equal. lia.
    + intros i Hi. destruct (H503 i Hi) as (r & -> & Hr). simpl. now rewrite Hr.
  - intros max_retries k s0 data0 Hk Hw Hok.
    rewrite (request_page_success_after max_retries k s0 data0 Hk Hw Hok).
    split; [reflexivity|]. simpl.
    rewrite backoffs_pow, map_map. reflexivity.
Qed.

(** C3: when each of the [max_retries] attempts receives a status among 429,
    500, 502, 503 and 504, the call raises on the last attempt a
    [RuntimeError] whose message holds the status code and the body of the
    last response, after [max_retries] POSTs and [max_retries - 1] sleeps. *)
Theorem request_page_exhausts_on_retryable_status (max_retries : Z) (s : state) :
  0 < max_retries ->
  (forall i, Z.of_nat i < max_retries ->
     exists r, world (posts s + i) = Responded r
               /\ retryable_status (status_code r) = true) ->
  exists last,
    world (posts s + Z.to_nat (max_retries - 1)) = Responded last
    /\ request_page max_retries s
       = (Raise (RuntimeError ("HTTP " ++ str_of_Z (status_code last) ++ ": " ++ text last)%string),
          count_post (after_retries (Z.to_nat (max_retries - 1)) 1 (count_fetch s)))
    /\ posts (snd (request_page max_retries s)) = (posts s + Z.to_nat max_retries)%nat
    /\ List.length (slept (snd (request_page max_retries s)))
       = (List.length (slept s) + Z.to_nat (max_retries - 1))%nat.
Proof.
  intros Hpos Hall.
  set (k := Z.to_nat (max_retries - 1)).
  assert (Hk : Z.of_nat k < max_retries) by lia.
  destruct (Hall k Hk) as (last & Hlast & Hretry).
  exists last. split; [exact Hlast|].
  assert (Hw : forall i, (i < k)%nat -> retried (world (posts s + i)) = true).
  { intros i Hi. destruct (Hall i) as (r & -> & Hr); [lia|].
    simpl. now rewrite Hr, (retryable_not_200 _ Hr). }
  destruct (request_page_at max_retries k s Hk Hw) as (m & Heq & Hm).
  assert (Hrun : request_page max_retries s
                 = (Raise (RuntimeError (http_message last)),
                    count_post (after_retries k 1 (count_fetch s)))).
  { rewrite Heq. simpl. rewrite Hlast, (retryable_not_200 _ Hretry), Hretry.
    replace (Z.of_nat k =? max_retries - 1) with true by (symmetry; apply Z.eqb_eq; lia).
    reflexivity. }
  rewrite Hrun. split; [reflexivity|]. simpl. split; [lia|].
  rewrite length_app, length_map.
  f_equal. clear. generalize 1. induction k as [|k IH]; intros b; simpl; [reflexivity|].
  now rewrite IH.
Qed.

(** C4: an HTTP 200 whose body does not parse, or a status outside 200, 429,
    500, 502, 503, 504, makes [request_page] raise at once, whatever the
    budget left: after [k] retried attempts the call ends with POST [k + 1]
    and the [k] sleeps that preceded it, no more. *)
Theorem request_page_fails_immediately (max_retries : Z) (k : nat) (s : state) (r : response) :
  Z.of_nat k < max_retries ->
  (forall i, (i < k)%nat -> retried (world (posts s + i)) = true) ->
  world (posts s + k) = Responded r ->
  (status_code r = 200 /\ body_json r = None)
  \/ (status_code r <> 200 /\ retryable_status (status_code r) = false) ->
  request_page max_retries s
  = (Raise (RuntimeError (if status_code r =? 200 then "Invalid JSON in API response"
                          else http_message r)),
     mkState (posts s + k + 1) (S (fetches s))
       (slept s ++ map inject_Z (backoffs k 1)) (rows s) (stderr s) (stdout s)).
Proof.
  intros Hk Hw Hr Hbad.
  destruct (request_page_at max_retries k s Hk Hw) as (m & -> & _).
  simpl. rewrite Hr.
  destruct Hbad as [[H200 Hjson] | [Hn200 Hnretry]].
  - rewrite H200, Hjson. simpl. unfold count_post; simpl. f_equal. f_equal. lia.
  - apply Z.eqb_neq in Hn200. rewrite Hn200, Hnretry.
    unfold count_post; simpl. f_equal. f_equal. lia.
Qed.

(** ** The label normalizer *)


(** ** Tags *)

Lemma append_labels_spec (lang : string) (items : list json) :
  forall tags, append_labels lang items tags = tags ++ labels_of lang items.
Proof.
  unfold append_labels, labels_of.
  induction items as [|item items IH]; intros tags; simpl.
  - now rewrite app_nil_r.
  - rewrite IH. destruct (String.eqb (normalize_label lang item) ""); simpl.
    + reflexivity.
    + now rewrite <- app_assoc.
Qed.

(** C8: the Tags/keywords field of an article is the labels of its concepts
    followed by the labels of its categories, the empty ones dropped, joined
    with "; ".  The two articles of the example get "Economy; Business" and
    "Markets". *)
Theorem tags_field_concepts_then_categories
    (lang : string) (d : list (string * json)) (concepts categories : list json) :
  entries_of d "concepts" = Ok concepts ->
  entries_of d "categories" = Ok categories ->
  extract_tags (JDict d) lang
  = Ok (labels_of lang concepts ++ labels_of lang categories)
  /\ (forall outlet,
        py_get (py_or (dict_get d "source") (JDict [])) "title" = Ok outlet ->
        flat_record lang (JDict d)
        = Ok [py_or (dict_get d "title") (JStr ""); py_or (dict_get d "url") (JStr "");
              py_or outlet (JStr ""); py_or (dict_get d "body") (JStr "");
              JStr (tags_field lang concepts categories)])
  /\ map (fun r => nth 4 r JNull)
       (rows (snd (write_articles lang [article_economy; article_markets] 0 initial)))
     = [JStr "Economy; Business"; JStr "Markets"].
Proof.
  intros Hc Hk.
  assert (Htags : extract_tags (JDict d) lang
                  = Ok (labels_of lang concepts ++ labels_of lang categories)).
  { unfold extract_tags, entries_of in *. simpl. rewrite Hc. simpl. rewrite Hk. simpl.
    now rewrite !append_labels_spec. }
  split; [exact Htags|]. split; [|reflexivity].
  intros outlet Ho. unfold flat_record. cbn [py_get rbind].
  rewrite Ho. cbn [rbind]. rewrite Htags. cbn [rbind].
  unfold tags_field, labels_of. now rewrite map_app, filter_app.
Qed.

(** ** The date range resolver *)

(** C9: a lookback of zero or fewer days, with no override, resolves to the
    window of one day ending today; nothing is raised. *)
Theorem compute_dates_clamps_lookback (today days : Z) :
  days <= 0 ->
  date_min < today ->
  compute_dates today days None None = Ok (isoformat (today - 1), isoformat today).
Proof.
  intros Hdays Htoday. unfold compute_dates, lookback_window, timedelta_max_days, date_min in *.
  replace (Z.max days 1) with 1 by lia.
  destruct (999999999 <? 1) eqn:H1; [apply Z.ltb_lt in H1; lia|].
  destruct (today - 1 <? 1) eqn:H2; [apply Z.ltb_lt in H2; lia|].
  reflexivity.
Qed.

(** C10: with exactly one of the two overrides supplied (the other absent or
    empty) [compute_dates] answers as with none: the supplied date has no
    effect, and the window is the one of the lookback. *)
Theorem compute_dates_ignores_single_override (today days : Z) (ds de : option string) :
  xorb (given ds) (given de) = true ->
  compute_dates today days ds de = compute_dates today days None None
  /\ (days <= timedelta_max_days ->
      date_min <= today - Z.max days 1 ->
      compute_dates today days ds de
      = Ok (isoformat (today - Z.max days 1), isoformat today)).
Proof.
  intros Hone.
  assert (Heq : compute_dates today days ds de = lookback_window today days).
  { unfold compute_dates. destruct ds as [ds|], de as [de|]; try reflexivity.
    destruct (given (Some ds)), (given (Some de)); simpl in *; congruence. }
  split; [exact Heq|].
  intros Hdays Hmin. rewrite Heq. unfold lookback_window, timedelta_max_days, date_min in *.
  destruct (999999999 <? Z.max days 1) eqn:H1; [apply Z.ltb_lt in H1; lia|].
  destruct (today - Z.max days 1 <? 1) eqn:H2; [apply Z.ltb_lt in H2; lia|].
  reflexivity.
Qed.

(** ** The pagination loop *)

Lemma request_attempts_frame (max_retries : Z) (attempts : list Z) :
  forall backoff s,
    let s' := snd (request_attempts max_retries attempts backoff s) in
    fetches s' = fetches s /\ rows s' = rows s /\ stderr s' = stderr s
    /\ stdout s' = stdout s /\ (posts s <= posts s')%nat.
Proof using world.
  induction attempts as [|attempt rest IH]; intros backoff s; simpl.
  - repeat split; lia.
  - assert (Hnext : let s' := snd (request_attempts max_retries rest (Z.min 60 (backoff * 2))
                                     (sleep (inject_Z backoff) (count_post s))) in
                    fetches s' = fetches s /\ rows s' = rows s /\ stderr s' = stderr s
                    /\ stdout s' = stdout s /\ (posts s <= posts s')%nat).
    { specialize (IH (Z.min 60 (backoff * 2)) (sleep (inject_Z backoff) (count_post s))).
      simpl in IH. simpl. destruct IH as (H1 & H2 & H3 & H4 & H5).
      repeat split; try assumption. apply Nat.le_trans with (2 := H5). apply Nat.le_succ_diag_r. }
    destruct (world (posts s)) as [e|resp].
    + destruct (attempt =? max_retries - 1); [simpl; repeat split; lia | exact Hnext].
    + destruct (status_code resp =? 200).
      * destruct (body_json resp); simpl; repeat split; lia.
      * destruct (retryable_status (status_code resp)); [|simpl; repeat split; lia].
        destruct (attempt =? max_retries - 1); [simpl; repeat split; lia | exact Hnext].
Qed.

Lemma request_page_fetches (max_retries : Z) (s : state) :
  fetches (snd (request_page max_retries s)) = S (fetches s)
  /\ rows (snd (request_page max_retries s)) = rows s
  /\ stdout (snd (request_page max_retries s)) = stdout s.
Proof.
  unfold request_page.
  destruct (request_attempts_frame max_retries (range max_retries) 1 (count_fetch s))
    as (Hf & Hr & _ & Ho & _).
  simpl in *. auto.
Qed.



Lemma write_articles_frame (lang : string) (articles : list json) :
  forall total s,
    let s' := snd (write_articles lang articles total s) in
    posts s' = posts s /\ fetches s' = fetches s /\ slept s' = slept s
    /\ stdout s' = stdout s.
Proof.
  induction articles as [|article rest IH]; intros total s; simpl; [auto|].
  destruct (flat_record lang article) as [r|e]; simpl; [|auto].
  specialize (IH (total + 1) (writerow r s)). simpl in IH. exact IH.
Qed.


(** The state in which the next iteration starts. *)
Lemma next_iteration_frame (args : Args) (s2 : state) :
  let s3 := if negb (Qle_bool (page_delay args) 0) then sleep (page_delay args) s2 else s2 in
  posts s3 = posts s2 /\ fetches s3 = fetches s2.
Proof.
  destruct (negb (Qle_bool (page_delay args) 0)); simpl; auto.
Qed.



(** ** The page count *)





(** * Further properties of the fetcher *)

(** ** The attempts of one call *)

Lemma attempt_ends_call (n : nat) (backoff : Z) (s : state) (res : result json) :
  res <> Raise (RuntimeError "Max retries exceeded") ->
  exists j, (j <= n)%nat
            /\ posts (snd (res, count_post s)) = (posts s + S j)%nat
            /\ slept (snd (res, count_post s)) = slept s ++ map inject_Z (backoffs j backoff)
            /\ fst (res, count_post s) <> Raise (RuntimeError "Max retries exceeded").
Proof.
  intros Hres. exists 0%nat. simpl. rewrite app_nil_r.
  repeat split; [apply Nat.le_0_l | apply eq_sym, Nat.add_1_r | exact Hres].
Qed.

Lemma request_attempts_budget (max_retries : Z) (n : nat) :
  forall (a : nat) (backoff : Z) (s : state),
    Z.of_nat (a + S n) = max_retries ->
    let run := request_attempts max_retries (map Z.of_nat (seq a (S n))) backoff s in
    exists j, (j <= n)%nat
              /\ posts (snd run) = (posts s + S j)%nat
              /\ slept (snd run) = slept s ++ map inject_Z (backoffs j backoff)
              /\ fst run <> Raise (RuntimeError "Max retries exceeded").
Proof.
  induction n as [|n IH]; intros a backoff s Ha; cbn zeta;
    cbn [seq map request_attempts].
  - replace (Z.of_nat a =? max_retries - 1) with true by (symmetry; apply Z.eqb_eq; lia).
    destruct (world (posts s)) as [e|resp]; [apply attempt_ends_call; discriminate|].
    destruct (status_code resp =? 200);
      [destruct (body_json resp); apply attempt_ends_call; discriminate|].
    destruct (retryable_status (status_code resp)); apply attempt_ends_call; discriminate.
  - replace (Z.of_nat a =? max_retries - 1) with false by (symmetry; apply Z.eqb_neq; lia).
    assert (Hnext : let run := request_attempts max_retries (map Z.of_nat (seq (S a) (S n)))
                                 (Z.min 60 (backoff * 2)) (sleep (inject_Z backoff) (count_post s)) in
                    exists j, (j <= S n)%nat
                              /\ posts (snd run) = (posts s + S j)%nat
                              /\ slept (snd run) = slept s ++ map inject_Z (backoffs j backoff)
                              /\ fst run <> Raise (RuntimeError "Max retries exceeded")).
    { destruct (IH (S a) (Z.min 60 (backoff * 2)) (sleep (inject_Z backoff) (count_post s)))
        as (j & Hj & Hp & Hs & Hres); [lia|].
      exists (S j). cbn zeta. repeat split; [lia | | | exact Hres].
      - rewrite Hp. simpl. lia.
      - rewrite Hs. simpl. now rewrite <- app_assoc. }
    destruct (world (posts s)) as [e|resp]; [exact Hnext|].
    destruct (status_code resp =? 200);
      [destruct (body_json resp); apply attempt_ends_call; discriminate|].
    destruct (retryable_status (status_code resp));
      [exact Hnext | apply attempt_ends_call; discriminate].
Qed.

(** X1: whatever the endpoint answers, a call with a budget of at least one
    attempt makes between 1 and [max_retries] POSTs and sleeps once between
    two of them, for [min 60 (2^i)] before attempt [i + 2]. *)
Theorem request_page_within_budget (max_retries : Z) (s : state) :
  0 < max_retries ->
  exists j,
    Z.of_nat j < max_retries
    /\ posts (snd (request_page max_retries s)) = (posts s + S j)%nat
    /\ slept (snd (request_page max_retries s))
       = slept s ++ map (fun i => inject_Z (Z.min 60 (2 ^ i))) (range (Z.of_nat j)).
Proof.
  intros Hpos. unfold request_page, range.
  replace (Z.to_nat max_retries) with (S (Z.to_nat max_retries - 1)) by lia.
  destruct (request_attempts_budget max_retries (Z.to_nat max_retries - 1) 0 1 (count_fetch s))
    as (j & Hj & Hp & Hs & _); [lia|].
  exists j. split; [lia|]. split; [exact Hp|].
  rewrite Hs. simpl slept. now rewrite backoffs_pow, map_map.
Qed.

(** X2: the closing [raise RuntimeError("Max retries exceeded")] is reached
    exactly when the budget holds no attempt; no POST is made then. *)
Theorem max_retries_exceeded_iff (max_retries : Z) (s : state) :
  (fst (request_page max_retries s) = Raise (RuntimeError "Max retries exceeded")
   <-> max_retries <= 0)
  /\ (max_retries <= 0 -> snd (request_page max_retries s) = count_fetch s).
Proof.
  assert (Hnone : max_retries <= 0 ->
                  request_page max_retries s
                  = (Raise (RuntimeError "Max retries exceeded"), count_fetch s)).
  { intros Hle. unfold request_page, range.
    replace (Z.to_nat max_retries) with 0%nat by lia. reflexivity. }
  split; [split|].
  - intros Hraise. destruct (Z_le_gt_dec max_retries 0) as [Hle|Hgt]; [exact Hle|].
    exfalso. revert Hraise. unfold request_page, range.
    replace (Z.to_nat max_retries) with (S (Z.to_nat max_retries - 1)) by lia.
    destruct (request_attempts_budget max_retries (Z.to_nat max_retries - 1) 0 1 (count_fetch s))
      as (j & _ & _ & _ & Hres); [lia | exact Hres].
  - intros Hle. now rewrite Hnone.
  - intros Hle. now rewrite Hnone.
Qed.

(** X3: when the last attempt of the budget fails in the transport, after
    attempts that were all retried, the exception of that attempt is the one
    raised. *)
Theorem request_page_surfaces_transport_error (max_retries : Z) (s : state) (e : string) :
  0 < max_retries ->
  (forall i, Z.of_nat i < max_retries - 1 -> retried (world (posts s + i)) = true) ->
  world (posts s + Z.to_nat (max_retries - 1)) = Failed e ->
  request_page max_retries s
  = (Raise (RequestException e),
     mkState (posts s + Z.to_nat max_retries) (S (fetches s))
       (slept s ++ map inject_Z (backoffs (Z.to_nat (max_retries - 1)) 1))
       (rows s) (stderr s) (stdout s)).
Proof.
  intros Hpos Hw Hlast.
  set (k := Z.to_nat (max_retries - 1)) in *.
  assert (Hk : Z.of_nat k < max_retries) by lia.
  destruct (request_page_at max_retries k s Hk) as (m & -> & Hm).
  - intros i Hi. apply Hw. lia.
  - simpl. rewrite Hlast.
    replace (Z.of_nat k =? max_retries - 1) with true by (symmetry; apply Z.eqb_eq; lia).
    unfold count_post; simpl. f_equal. f_equal. lia.
Qed.

(** ** Rows *)

Lemma py_get_or_ok (v : json) (k : string) :
  (exists o, py_get (py_or v (JDict [])) k = Ok o) <-> dict_or_falsy v = true.
Proof.
  unfold py_or, dict_or_falsy.
  destruct (truthy v) eqn:Ht; simpl.
  - destruct v; simpl; split; intros H; try discriminate; try (destruct H; discriminate);
      try reflexivity; eexists; reflexivity.
  - split; [reflexivity | intros _; eexists; reflexivity].
Qed.

Lemma py_iter_or_ok (v : json) :
  (exists l, py_iter (py_or v (JList [])) = Ok l) <-> iterable_or_falsy v = true.
Proof.
  unfold py_or, iterable_or_falsy.
  destruct (truthy v) eqn:Ht; simpl.
  - destruct v; simpl; split; intros H; try discriminate; try (destruct H; discriminate);
      try reflexivity; eexists; reflexivity.
  - split; [reflexivity | intros _; eexists; reflexivity].
Qed.

Lemma extract_tags_labels (lang : string) (d : list (string * json)) (tags : list string) :
  extract_tags (JDict d) lang = Ok tags ->
  exists concepts categories,
    entries_of d "concepts" = Ok concepts
    /\ entries_of d "categories" = Ok categories
    /\ tags = labels_of lang concepts ++ labels_of lang categories.
Proof.
  unfold extract_tags, entries_of. cbn [py_get rbind].
  destruct (py_iter (py_or (dict_get d "concepts") (JList []))) as [cs|e]; [|discriminate].
  cbn [rbind].
  destruct (py_iter (py_or (dict_get d "categories") (JList []))) as [ks|e]; [|discriminate].
  cbn [rbind]. intros Heq. injection Heq as <-.
  exists cs, ks. rewrite !append_labels_spec. auto.
Qed.

Lemma labels_of_nonempty (lang : string) (entries : list json) :
  Forall (fun label => label <> "") (labels_of lang entries)
  /\ (List.length (labels_of lang entries) <= List.length entries)%nat.
Proof.
  unfold labels_of. split.
  - apply Forall_forall. intros label Hin. apply filter_In in Hin. destruct Hin as [_ Hne].
    intros ->. discriminate.
  - rewrite <- (length_map (normalize_label lang) entries). apply filter_length_le.
Qed.

Lemma concat_nonempty (sep : string) (tags : list string) :
  Forall (fun label => label <> "") tags ->
  String.concat sep tags = "" -> tags = [].
Proof.
  intros Hall. destruct tags as [|t rest]; [reflexivity|].
  inversion Hall as [|? ? Ht _]; subst.
  destruct t as [|c t]; [contradiction|].
  destruct rest; simpl; discriminate.
Qed.

(** X4: the tags of an article are never empty strings and are no more than
    its concept and category entries, so the Tags/keywords field is empty
    only when there is no tag at all; an article whose concepts and
    categories are missing, null or empty has none. *)
Theorem extract_tags_no_empty_tag (lang : string) (d : list (string * json)) (tags : list string) :
  extract_tags (JDict d) lang = Ok tags ->
  Forall (fun label => label <> "") tags
  /\ (String.concat "; " tags = "" <-> tags = [])
  /\ (forall concepts categories,
        entries_of d "concepts" = Ok concepts ->
        entries_of d "categories" = Ok categories ->
        (List.length tags <= List.length concepts + List.length categories)%nat)
  /\ (truthy (dict_get d "concepts") = false ->
      truthy (dict_get d "categories") = false -> tags = []).
Proof.
  intros Htags.
  destruct (extract_tags_labels lang d tags Htags) as (cs & ks & Hc & Hk & ->).
  assert (Hall : Forall (fun label => label <> "") (labels_of lang cs ++ labels_of lang ks)).
  { apply Forall_app. split; apply labels_of_nonempty. }
  split; [exact Hall|]. split; [|split].
  - split; [apply concat_nonempty; exact Hall | intros ->; reflexivity].
  - intros concepts categories Hc' Hk'.
    rewrite Hc in Hc'. rewrite Hk in Hk'. injection Hc' as <-. injection Hk' as <-.
    rewrite length_app.
    apply Nat.add_le_mono; apply labels_of_nonempty.
  - intros Hfc Hfk. unfold entries_of, py_or in Hc, Hk. rewrite Hfc in Hc. rewrite Hfk in Hk.
    injection Hc as <-. injection Hk as <-. reflexivity.
Qed.

Lemma flat_record_shape (lang : string) (article : json) (r : row) :
  flat_record lang article = Ok r ->
  List.length r = 5%nat
  /\ Forall (fun cell => truthy cell = true \/ cell = JStr "") r.
Proof.
  unfold flat_record.
  destruct article as [| | | | | |d]; try discriminate.
  cbn [py_get rbind].
  destruct (py_get (py_or (dict_get d "source") (JDict [])) "title") as [outlet|e];
    [|discriminate].
  cbn [rbind].
  destruct (extract_tags (JDict d) lang) as [tags|e]; [|discriminate].
  cbn [rbind]. intros Heq. injection Heq as <-.
  split; [reflexivity|].
  assert (Hor : forall v, truthy (py_or v (JStr "")) = true \/ py_or v (JStr "") = JStr "").
  { intros v. unfold py_or. destruct (truthy v) eqn:Hv; [left; exact Hv | right; reflexivity]. }
  do 4 (apply Forall_cons; [apply Hor|]).
  apply Forall_cons; [|apply Forall_nil].
  destruct (String.concat "; " tags); [right | left]; reflexivity.
Qed.

(** X5: a row built for an article has five cells, none of them a falsy
    value other than the empty string: what is missing or null is written
    as "". *)
Theorem flat_record_cells (lang : string) (article : json) (r : row) :
  flat_record lang article = Ok r ->
  List.length r = 5%nat
  /\ Forall (fun cell => truthy cell = true \/ cell = JStr "") r.
Proof.
  apply flat_record_shape.
Qed.

(** X6: [flat_record] succeeds exactly on an article that is a dict whose
    [source] is falsy or a dict and whose [concepts] and [categories] are
    falsy or iterable; otherwise it raises [AttributeError] or
    [TypeError]. *)
Theorem flat_record_succeeds_iff (lang : string) (article : json) :
  ((exists r, flat_record lang article = Ok r)
   <-> exists d, article = JDict d
                 /\ dict_or_falsy (dict_get d "source") = true
                 /\ iterable_or_falsy (dict_get d "concepts") = true
                 /\ iterable_or_falsy (dict_get d "categories") = true)
  /\ (forall e, flat_record lang article = Raise e -> e = AttributeError \/ e = TypeError).
Proof.
  destruct article as [| | | | | |d];
    try (split; [split; [intros (r & H); discriminate | intros (d & H & _); discriminate]
                | intros e H; injection H as <-; left; reflexivity]).
  pose proof (py_get_or_ok (dict_get d "source") "title") as Hsrc.
  pose proof (py_iter_or_ok (dict_get d "concepts")) as Hcs.
  pose proof (py_iter_or_ok (dict_get d "categories")) as Hks.
  unfold flat_record, extract_tags. cbn [py_get rbind].
  destruct (py_get (py_or (dict_get d "source") (JDict [])) "title") as [outlet|e1] eqn:Ho;
    cbn [rbind].
  2: { split.
       - split; [intros (r & H); discriminate|].
         intros (d' & Hd & Hs & _). injection Hd as <-.
         apply Hsrc in Hs. destruct Hs as (o & Hs). discriminate.
       - intros e H. injection H as <-.
         unfold py_get in Ho. destruct (py_or (dict_get d "source") (JDict []));
           try discriminate; injection Ho as <-; left; reflexivity. }
  destruct (py_iter (py_or (dict_get d "concepts") (JList []))) as [cs|e1] eqn:Hc;
    cbn [rbind].
  2: { split.
       - split; [intros (r & H); discriminate|].
         intros (d' & Hd & _ & Hi & _). injection Hd as <-.
         apply Hcs in Hi. destruct Hi as (l & Hi). discriminate.
       - intros e H. injection H as <-.
         unfold py_iter in Hc. destruct (py_or (dict_get d "concepts") (JList []));
           try discriminate; injection Hc as <-; right; reflexivity. }
  destruct (py_iter (py_or (dict_get d "categories") (JList []))) as [ks|e1] eqn:Hk;
    cbn [rbind].
  2: { split.
       - split; [intros (r & H); discriminate|].
         intros (d' & Hd & _ & _ & Hi). injection Hd as <-.
         apply Hks in Hi. destruct Hi as (l & Hi). discriminate.
       - intros e H. injection H as <-.
         unfold py_iter in Hk. destruct (py_or (dict_get d "categories") (JList []));
           try discriminate; injection Hk as <-; right; reflexivity. }
  split; [|intros e H; discriminate].
  split; [|intros _; eexists; reflexivity].
  intros _. exists d. split; [reflexivity|].
  split; [apply Hsrc; eauto|]. split; [apply Hcs; eauto | apply Hks; eauto].
Qed.

(** ** What a run leaves behind *)

Lemma write_articles_rows (lang : string) (articles : list json) :
  forall (total : Z) (s : state),
    let run := write_articles lang articles total s in
    exists new,
      rows (snd run) = rows s ++ new
      /\ Forall (fun r => List.length r = 5%nat) new
      /\ (forall n, fst run = Ok n -> n = total + Z.of_nat (List.length new)).
Proof.
  induction articles as [|article rest IH]; intros total s; cbn zeta; simpl.
  - exists []. rewrite app_nil_r. repeat split; [constructor|].
    intros n Hn. injection Hn as <-. simpl. lia.
  - destruct (flat_record lang article) as [r|e] eqn:Hr; simpl.
    + destruct (IH (total + 1) (writerow r s)) as (new & Hrows & Hw & Hn).
      exists (r :: new). simpl in Hrows. rewrite Hrows, <- app_assoc. repeat split.
      * constructor; [apply (flat_record_shape lang article r Hr) | exact Hw].
      * intros n Heq. rewrite (Hn n Heq). simpl List.length. lia.
    + exists []. rewrite app_nil_r. repeat split; [constructor | intros n Hn; discriminate].
Qed.

Lemma request_page_posts (s : state) :
  (posts (snd (request_page 5 s)) <= posts s + 5)%nat.
Proof.
  unfold request_page. change (range 5) with (map Z.of_nat (seq 0 5)).
  destruct (request_attempts_budget 5 4 0 1 (count_fetch s) eq_refl) as (j & Hj & Hp & _).
  rewrite Hp. simpl. clear - Hj. apply Nat.add_le_mono_l. apply le_n_S. exact Hj.
Qed.

Lemma loop_outcome_now (fuel : nat) (total : Z) (s s1 : state) (res : result Z) :
  rows s1 = rows s -> stdout s1 = stdout s -> fetches s1 = S (fetches s) ->
  (posts s1 <= posts s + 5)%nat ->
  (forall n, res = Ok n -> n = total) ->
  loop_outcome (S fuel) total s (res, s1).
Proof.
  intros Hr Ho Hf Hp Hn. exists []. simpl. rewrite app_nil_r, Hf.
  repeat split; try assumption; try constructor; try lia.
  intros n Heq. rewrite (Hn n Heq). lia.
Qed.

Lemma pages_loop_outcome (args : Args) (fuel : nat) :
  forall (page total : Z) (s : state) (out : result Z * state),
    pages_loop fuel args page total s = Some out -> loop_outcome fuel total s out.
Proof.
  induction fuel as [|fuel IH]; intros page total s out; [discriminate|].
  cbn [pages_loop].
  pose proof (request_page_fetches 5 s) as (Hf1 & Hr1 & Ho1).
  pose proof (request_page_posts s) as Hp1.
  destruct (request_page 5 s) as [[data|e] s1]; simpl in Hf1, Hr1, Ho1, Hp1;
    [|intros H; injection H as <-; apply loop_outcome_now; auto; discriminate].
  destruct (page_results data) as [[sec res]|e];
    [|intros H; injection H as <-; apply loop_outcome_now; auto; discriminate].
  destruct (negb (truthy res));
    [intros H; injection H as <-; apply loop_outcome_now; auto;
     intros n Hn; injection Hn as <-; reflexivity|].
  destruct (py_iter res) as [articles|e];
    [|intros H; injection H as <-; apply loop_outcome_now; auto; discriminate].
  pose proof (write_articles_frame (lang args) articles total s1) as Hframe.
  pose proof (write_articles_rows (lang args) articles total s1) as Hrows.
  destruct (write_articles (lang args) articles total s1) as [wres s2].
  cbn zeta in Hframe, Hrows. simpl in Hframe, Hrows.
  destruct Hframe as (Hp2 & Hf2 & _ & Ho2).
  destruct Hrows as (new & Hnew & Hw & Hn).
  assert (Hhere : forall res', (forall n, res' = Ok n -> wres = Ok n) ->
                              loop_outcome (S fuel) total s (res', s2)).
  { intros res' Hres'. exists new. simpl. rewrite Hnew, Hr1, Hp2, Hf2, Hf1, Ho2, Ho1.
    repeat split; try assumption; try lia.
    intros n Heq. apply Hn. apply Hres'. exact Heq. }
  destruct wres as [total'|e];
    [|intros H; injection H as <-; apply Hhere; discriminate].
  destruct (should_stop args page (total_pages_of args sec));
    [intros H; injection H as <-; apply Hhere; auto|].
  pose proof (next_iteration_frame args s2) as Hnext. cbv zeta in Hnext.
  assert (Hs3 : rows (if negb (Qle_bool (page_delay args) 0)
                      then sleep (page_delay args) s2 else s2) = rows s2
                /\ stdout (if negb (Qle_bool (page_delay args) 0)
                           then sleep (page_delay args) s2 else s2) = stdout s2)
    by (destruct (negb (Qle_bool (page_delay args) 0)); split; reflexivity).
  set (s3 := if negb (Qle_bool (page_delay args) 0) then sleep (page_delay args) s2 else s2) in *.
  destruct Hnext as [Hp3 Hf3]. destruct Hs3 as [Hr3 Ho3].
  intros Hrun. destruct (IH _ _ _ _ Hrun) as (new' & Hnew' & Hw' & Hn' & Hposts & Hfetch & Hout).
  exists (new ++ new'). rewrite Hnew', Hr3, Hnew, Hr1, <- app_assoc.
  repeat split.
  - apply Forall_app. split; assumption.
  - intros n Heq. rewrite (Hn' n Heq), (Hn total' eq_refl), length_app. lia.
  - rewrite Hp3, Hp2, Hf3, Hf2, Hf1 in Hposts. lia.
  - rewrite Hf3, Hf2, Hf1 in Hfetch. lia.
  - rewrite Hf3, Hf2, Hf1 in Hfetch. lia.
  - rewrite Hout, Ho3, Ho2, Ho1. reflexivity.
Qed.

(** X7: in every finished run of the loop, normal or failed, the rows
    written before are still there, every row added has five cells, and a
    normal end returns the count it was given plus the number of rows added:
    nothing is rolled back and the count is exact. *)
Theorem pages_loop_appends_rows
    (args : Args) (fuel : nat) (page total : Z) (s : state) (out : result Z * state) :
  pages_loop fuel args page total s = Some out ->
  exists new,
    rows (snd out) = rows s ++ new
    /\ Forall (fun r => List.length r = 5%nat) new
    /\ (forall n, fst out = Ok n -> n = total + Z.of_nat (List.length new)).
Proof.
  intros Hrun. destruct (pages_loop_outcome args fuel page total s out Hrun)
    as (new & Hrows & Hw & Hn & _).
  exists new. auto.
Qed.

(** X8: a finished run of the loop has made at least one fetch and at most
    one per iteration, and at most five POSTs for each fetch. *)
Theorem pages_loop_post_budget
    (args : Args) (fuel : nat) (page total : Z) (s : state) (out : result Z * state) :
  pages_loop fuel args page total s = Some out ->
  (fetches s < fetches (snd out) <= fetches s + fuel)%nat
  /\ (posts (snd out) - posts s <= 5 * (fetches (snd out) - fetches s))%nat.
Proof.
  intros Hrun. destruct (pages_loop_outcome args fuel page total s out Hrun)
    as (new & _ & _ & _ & Hposts & Hfetch & _).
  split; [exact Hfetch | lia].
Qed.

Lemma should_stop_at_cap (args : Args) (page : Z) (total_pages : option Z) :
  max_pages args <> 0 -> max_pages args <= page -> should_stop args page total_pages = true.
Proof.
  intros Hm Hle. unfold should_stop.
  apply Z.eqb_neq in Hm. rewrite Hm.
  replace (page >=? max_pages args) with true by (symmetry; apply Z.geb_le; lia).
  reflexivity.
Qed.

Lemma loop_stops_at_cap (args : Args) :
  max_pages args <> 0 ->
  forall (n : nat) (page total_rows : Z) (s : state),
    max_pages args - page < Z.of_nat (S n) ->
    exists out, pages_loop (S n) args page total_rows s = Some out
                /\ (fetches (snd out) <= fetches s + S n)%nat.
Proof.
  intros Hm.
  induction n as [|n IH]; intros page total_rows s Hpage.
  all: cbn [pages_loop];
    pose proof (request_page_fetches 5 s) as (Hf1 & _);
    destruct (request_page 5 s) as [[data|e] s1]; simpl in Hf1;
    [|eexists; split; [reflexivity | simpl; lia]];
    destruct (page_results data) as [[sec res]|e];
    [|eexists; split; [reflexivity | simpl; lia]];
    (destruct (negb (truthy res)); [eexists; split; [reflexivity | simpl; lia]|]);
    (destruct (py_iter res) as [articles|e];
     [|eexists; split; [reflexivity | simpl; lia]]);
    pose proof (write_articles_frame (lang args) articles total_rows s1) as Hframe;
    destruct (write_articles (lang args) articles total_rows s1) as [[total'|e] s2];
    simpl in Hframe; destruct Hframe as (_ & Hf2 & _);
    [|eexists; split; [reflexivity | simpl; lia]].
  - rewrite should_stop_at_cap by lia.
    eexists; split; [reflexivity | simpl; lia].
  - destruct (should_stop args page (total_pages_of args sec));
      [eexists; split; [reflexivity | simpl; lia]|].
    pose proof (next_iteration_frame args s2) as Hnext. cbv zeta in Hnext.
    set (s3 := if negb (Qle_bool (page_delay args) 0) then sleep (page_delay args) s2 else s2) in *.
    destruct Hnext as [_ Hf3].
    destruct (IH (page + 1) total' s3) as (out & Hout & Hle); [lia|].
    exists out. split; [exact Hout | lia].
Qed.

(** X9: a page cap other than 0 bounds the run whatever the endpoint answers:
    started at page 1 the loop ends within [max_pages] fetches, and within one
    fetch when the cap is negative. *)
Theorem max_pages_caps_fetches (args : Args) (total_rows : Z) (s : state) :
  max_pages args <> 0 ->
  exists out,
    pages_loop (Z.to_nat (Z.max 1 (max_pages args))) args 1 total_rows s = Some out
    /\ (fetches (snd out) <= fetches s + Z.to_nat (Z.max 1 (max_pages args)))%nat.
Proof.
  intros Hm.
  replace (Z.to_nat (Z.max 1 (max_pages args)))
    with (S (Z.to_nat (Z.max 1 (max_pages args)) - 1)) by lia.
  apply loop_stops_at_cap; [exact Hm | lia].
Qed.

(** X10: what the loop makes of a payload that is not a page: an object
    without [articles], or with a falsy one, ends the run normally like an
    empty page; a payload that is no object, or whose [articles] is truthy and
    no object, raises [AttributeError]. *)
Theorem payload_without_articles
    (args : Args) (fuel : nat) (page total_rows : Z) (s s1 : state) (data : json) :
  request_page 5 s = (Ok data, s1) ->
  (forall d, data = JDict d -> truthy (dict_get d "articles") = false ->
             pages_loop (S fuel) args page total_rows s = Some (Ok total_rows, s1))
  /\ ((forall d, data <> JDict d) ->
      pages_loop (S fuel) args page total_rows s = Some (Raise AttributeError, s1))
  /\ (forall d, data = JDict d -> dict_or_falsy (dict_get d "articles") = false ->
                pages_loop (S fuel) args page total_rows s = Some (Raise AttributeError, s1)).
Proof.
  intros Hreq. split; [|split].
  - intros d -> Hfalsy. cbn [pages_loop]. rewrite Hreq.
    unfold page_results, py_or. cbn [py_get rbind]. rewrite Hfalsy. reflexivity.
  - intros Hnot. cbn [pages_loop]. rewrite Hreq.
    destruct data; try reflexivity. exfalso. eapply Hnot. reflexivity.
  - intros d -> Hbad. cbn [pages_loop]. rewrite Hreq.
    unfold page_results, py_or, dict_or_falsy in *. cbn [py_get rbind].
    destruct (truthy (dict_get d "articles")); [|discriminate].
    destruct (dict_get d "articles"); try reflexivity. discriminate.
Qed.

(** ** Dates and start-up *)

(** X11: the cases of [compute_dates].  Two non-empty overrides come back as
    they are, whatever the clock and the lookback, in any order.  Otherwise
    the only failure is [OverflowError], raised exactly when the lookback
    exceeds [timedelta]'s 999999999 days or reaches before [date.min]. *)
Theorem compute_dates_cases (today days : Z) (ds de : option string) :
  (forall a b, ds = Some a -> de = Some b -> a <> "" -> b <> "" ->
               compute_dates today days ds de = Ok (a, b))
  /\ (given ds && given de = false ->
      forall e, compute_dates today days ds de = Raise e
                <-> e = OverflowError
                    /\ (timedelta_max_days < Z.max days 1
                        \/ today - Z.max days 1 < date_min)).
Proof.
  split.
  - intros a b -> -> Ha Hb. unfold compute_dates. simpl.
    apply String.eqb_neq in Ha, Hb. now rewrite Ha, Hb.
  - intros Hnot e.
    assert (Heq : compute_dates today days ds de = lookback_window today days).
    { unfold compute_dates. destruct ds as [a|], de as [b|]; try reflexivity.
      now rewrite Hnot. }
    rewrite Heq. unfold lookback_window.
    destruct (timedelta_max_days <? Z.max days 1) eqn:H1.
    + apply Z.ltb_lt in H1. split.
      * intros H. injection H as <-. auto.
      * intros [-> _]. reflexivity.
    + apply Z.ltb_ge in H1.
      destruct (today - Z.max days 1 <? date_min) eqn:H2.
      * apply Z.ltb_lt in H2. split.
        -- intros H. injection H as <-. auto.
        -- intros [-> _]. reflexivity.
      * apply Z.ltb_ge in H2. split; [discriminate|].
        intros [_ [H|H]]; lia.
Qed.

(** X12: without an API key, or when the date range cannot be resolved,
    [main] ends with an exception before it writes the header or sends any
    request, for every budget of iterations. *)
Theorem main_aborts_before_network (args : Args) (today : Z) (fuel : nat) :
  given (api_key args) = false
  \/ (exists e, compute_dates today (days args) (date_start args) (date_end args) = Raise e) ->
  exists e s',
    main args today fuel initial = Some (Raise e, s')
    /\ posts s' = 0%nat /\ fetches s' = 0%nat /\ rows s' = [] /\ stdout s' = [].
Proof.
  intros Hbad. unfold main.
  destruct (given (api_key args)) eqn:Hkey; simpl.
  - destruct Hbad as [Hk|(e & He)]; [discriminate|]. rewrite He.
    exists e, initial. repeat split.
  - eexists _, _. repeat split.
Qed.


End Program.

(** * Concrete runs *)

(** ** Runs on which the specification's wording fails *)




(** ** Instances of the theorems *)

Lemma request_page_503_four_times_then_200_witness :
  request_page world_503_then_ok 5 initial
  = (Ok (page_with [] (JInt 0)), mkState 5 1 [1; 2; 4; 8]%Q [] [] []).
Proof.
  refine (proj1 (request_page_503_four_times_then_200 world_503_then_ok initial
                   (page_with [] (JInt 0)) _ _)).
  - intros i Hi. destruct i as [|[|[|[|i]]]]; [| | | |lia];
      eexists; split; reflexivity.
  - eexists. repeat split; reflexivity.
Defined.

Lemma request_page_exhausts_on_retryable_status_witness :
  request_page world_503 5 initial
  = (Raise (RuntimeError "HTTP 503: Service Unavailable"),
     mkState 5 1 [1; 2; 4; 8]%Q [] [] []).
Proof.
  destruct (request_page_exhausts_on_retryable_status world_503 5 initial)
    as (last & Hlast & Hrun & _).
  - lia.
  - intros i _. eexists. split; reflexivity.
  - injection Hlast as <-. exact Hrun.
Defined.

Lemma request_page_fails_immediately_witness :
  request_page world_404 5 initial
  = (Raise (RuntimeError "HTTP 404: Not Found"), mkState 1 1 [] [] [] []).
Proof.
  refine (request_page_fails_immediately world_404 5 0 initial
            (mkResponse 404 "Not Found" None) _ _ _ _).
  - lia.
  - intros i Hi. lia.
  - reflexivity.
  - right. split; [discriminate | reflexivity].
Defined.

Lemma tags_field_concepts_then_categories_witness :
  extract_tags repr_opaque article_economy "eng" = Ok ["Economy"; "Business"].
Proof.
  refine (proj1 (tags_field_concepts_then_categories repr_opaque "eng"
                   [("concepts", JList [JStr "Economy"]);
                    ("categories", JList [JStr "Business"])]
                   [JStr "Economy"] [JStr "Business"] _ _)); reflexivity.
Defined.

Lemma compute_dates_clamps_lookback_witness :
  compute_dates iso_ordinal 739924 (-3) None None = Ok ("739923", "739924").
Proof.
  refine (compute_dates_clamps_lookback iso_ordinal 739924 (-3) _ _).
  - lia.
  - unfold date_min. lia.
Defined.

Lemma compute_dates_ignores_single_override_witness :
  compute_dates iso_ordinal 739924 60 (Some "2024-01-01") None
  = compute_dates iso_ordinal 739924 60 None None.
Proof.
  refine (proj1 (compute_dates_ignores_single_override iso_ordinal 739924 60
                   (Some "2024-01-01") None _)).
  reflexivity.
Defined.




(** * The request builder *)

Lemma dict_get_set (d : list (string * json)) (k0 k : string) (v : json) :
  dict_get (dict_set d k0 v) k = if String.eqb k0 k then v else dict_get d k.
Proof.
  induction d as [|[k' v'] d IH]; simpl.
  - reflexivity.
  - destruct (String.eqb k' k0) eqn:Hk0; simpl.
    + apply String.eqb_eq in Hk0. subst k'. destruct (String.eqb k0 k); reflexivity.
    + rewrite IH. destruct (String.eqb k' k) eqn:Hk; [|reflexivity].
      apply String.eqb_eq in Hk. subst k'. now rewrite String.eqb_sym, Hk0.
Qed.

Lemma dict_get_set_when (c : bool) (d : list (string * json)) (k0 k : string) (v : json) :
  dict_get (set_when c k0 v d) k = if c && String.eqb k0 k then v else dict_get d k.
Proof.
  unfold set_when. destruct c; [apply dict_get_set | reflexivity].
Qed.

Lemma dict_set_keys (d : list (string * json)) (k0 : string) (v : json) :
  (In k0 (map fst d) -> map fst (dict_set d k0 v) = map fst d)
  /\ (~ In k0 (map fst d) -> dict_set d k0 v = d ++ [(k0, v)]).
Proof.
  induction d as [|[k' v'] d [IHin IHout]]; simpl.
  - split; [contradiction | reflexivity].
  - destruct (String.eqb k' k0) eqn:Hk0; simpl.
    + apply String.eqb_eq in Hk0. subst k'. split; [reflexivity|].
      intros Hnot. exfalso. apply Hnot. now left.
    + apply String.eqb_neq in Hk0. split.
      * intros [Heq|Hin]; [contradiction|]. now rewrite IHin.
      * intros Hnot. rewrite IHout; [reflexivity|]. intros Hin. apply Hnot. now right.
Qed.

Lemma NoDup_snoc (l : list string) (k : string) :
  NoDup l -> ~ In k l -> NoDup (l ++ [k]).
Proof.
  intros Hnodup Hout.
  rewrite <- (rev_involutive (l ++ [k])). apply NoDup_rev.
  rewrite rev_app_distr. simpl. constructor.
  - intros Hin. apply Hout. now apply in_rev.
  - now apply NoDup_rev.
Qed.

Lemma dict_set_keys_known (known : list string) (d : list (string * json))
    (k0 : string) (v : json) :
  In k0 known ->
  NoDup (map fst d) /\ incl (map fst d) known ->
  NoDup (map fst (dict_set d k0 v)) /\ incl (map fst (dict_set d k0 v)) known.
Proof.
  intros Hk0 [Hnodup Hincl].
  destruct (in_dec string_dec k0 (map fst d)) as [Hin|Hout].
  - rewrite (proj1 (dict_set_keys d k0 v) Hin). auto.
  - rewrite (proj2 (dict_set_keys d k0 v) Hout), map_app. simpl. split.
    + now apply NoDup_snoc.
    + apply incl_app; [exact Hincl|]. intros x [<-|[]]. exact Hk0.
Qed.

Lemma set_when_keys_known (known : list string) (c : bool) (d : list (string * json))
    (k0 : string) (v : json) :
  In k0 known ->
  NoDup (map fst d) /\ incl (map fst d) known ->
  NoDup (map fst (set_when c k0 v d)) /\ incl (map fst (set_when c k0 v d)) known.
Proof.
  unfold set_when. destruct c; [apply dict_set_keys_known | auto].
Qed.

(** [build_payload] as its literal followed by its assignments. *)
Lemma build_payload_steps (args : Args) (more : Filters) (page : Z) :
  build_payload args more page
  = set_when (given (category_uri more)) "categoryUri" (uri_list (category_uri more))
      (set_when (given (source_uri more)) "sourceUri" (uri_list (source_uri more))
         (set_when (given (query more)) "query" (opt_json (query more))
            (set_when (given (keyword more)) "keyword" (opt_json (keyword more))
               (set_when (negb (String.eqb (lang args) "")) "lang" (JStr (lang args))
                  (dict_set (payload_base args more page) "isDuplicateFilter"
                     (JStr (if skip_duplicates more then "skipDuplicates" else "keepAll"))))))).
Proof.
  unfold build_payload, set_when, uri_list, payload_base. cbv zeta.
  destruct (skip_duplicates more), (source_uri more), (category_uri more); reflexivity.
Qed.

Lemma payload_base_keys (args : Args) (more : Filters) (page : Z) :
  NoDup (map fst (payload_base args more page))
  /\ incl (map fst (payload_base args more page)) payload_keys.
Proof.
  split.
  - unfold payload_base. cbn [map fst].
    repeat (apply NoDup_cons; [cbn [In]; intuition discriminate|]). apply NoDup_nil.
  - intros k Hin. unfold payload_base in Hin. cbn [map fst In] in Hin.
    unfold payload_keys. cbn [In]. tauto.
Qed.

Lemma build_payload_keys (args : Args) (more : Filters) (page : Z) :
  NoDup (map fst (build_payload args more page))
  /\ incl (map fst (build_payload args more page)) payload_keys.
Proof.
  rewrite build_payload_steps.
  repeat (apply set_when_keys_known; [unfold payload_keys; cbn [In]; tauto|]).
  apply dict_set_keys_known; [unfold payload_keys; cbn [In]; tauto|].
  apply payload_base_keys.
Qed.

(** X14: the body posted is the payload with the API key added at the end
    under [apiKey], a key the payload never holds; every field of the payload
    reads the same in the body, and no key occurs twice. *)
Theorem merged_adds_api_key (args : Args) (more : Filters) (page : Z) (key : string) :
  merged (build_payload args more page) key
  = build_payload args more page ++ [("apiKey", JStr key)]
  /\ dict_get (merged (build_payload args more page) key) "apiKey" = JStr key
  /\ (forall k, k <> "apiKey" ->
                dict_get (merged (build_payload args more page) key) k
                = dict_get (build_payload args more page) k)
  /\ NoDup (map fst (merged (build_payload args more page) key)).
Proof.
  destruct (build_payload_keys args more page) as [Hnodup Hincl].
  assert (Hfresh : ~ In "apiKey" (map fst (build_payload args more page))).
  { intros Hin. apply Hincl in Hin. unfold payload_keys in Hin. cbn [In] in Hin.
    intuition discriminate. }
  unfold merged. split; [apply dict_set_keys; exact Hfresh|]. split; [|split].
  - now rewrite dict_get_set, String.eqb_refl.
  - intros k Hk. rewrite dict_get_set.
    destruct (String.eqb "apiKey" k) eqn:Heq; [|reflexivity].
    apply String.eqb_eq in Heq. congruence.
  - rewrite (proj2 (dict_set_keys _ "apiKey" (JStr key)) Hfresh), map_app.
    now apply NoDup_snoc.
Qed.

(** X15: the requests of two pages differ in [articlesPage] only, which holds
    the page number. *)
Theorem build_payload_differs_in_page (args : Args) (more : Filters) (p q : Z) :
  dict_get (build_payload args more p) "articlesPage" = JInt p
  /\ (forall k, k <> "articlesPage" ->
                dict_get (build_payload args more p) k
                = dict_get (build_payload args more q) k).
Proof.
  rewrite !build_payload_steps. split.
  - rewrite !dict_get_set_when, dict_get_set.
    cbn [String.eqb Ascii.eqb Bool.eqb andb]. rewrite !andb_false_r. reflexivity.
  - intros k Hk. apply String.eqb_neq in Hk. rewrite String.eqb_sym in Hk.
    rewrite !dict_get_set_when, !dict_get_set.
    unfold payload_base. cbn [dict_get]. rewrite Hk. reflexivity.
Qed.

Lemma in_keys_dict_set (d : list (string * json)) (k0 k : string) (v : json) :
  In k (map fst (dict_set d k0 v)) <-> k = k0 \/ In k (map fst d).
Proof.
  destruct (in_dec string_dec k0 (map fst d)) as [Hin|Hout].
  - rewrite (proj1 (dict_set_keys d k0 v) Hin). split; [auto|].
    intros [->|H]; assumption.
  - rewrite (proj2 (dict_set_keys d k0 v) Hout), map_app, in_app_iff. simpl.
    split; [intros [H|[<-|[]]]; auto | intros [->|H]; auto].
Qed.

Lemma in_keys_set_when (c : bool) (d : list (string * json)) (k0 k : string) (v : json) :
  In k (map fst (set_when c k0 v d)) <-> (c = true /\ k = k0) \/ In k (map fst d).
Proof.
  unfold set_when. destruct c.
  - rewrite in_keys_dict_set. intuition.
  - intuition discriminate.
Qed.

Ltac key_present Hbase :=
  rewrite !in_keys_set_when, in_keys_dict_set; split;
  [ let H := fresh "H" in
    intros H; decompose [or and] H; clear H; try discriminate; try assumption;
    exfalso; eapply Hbase; [|eassumption]; cbn [In]; tauto
  | let H := fresh "H" in intros H; intuition auto ].

Ltac key_value H :=
  rewrite !dict_get_set_when, ?dict_get_set; rewrite H;
  cbn [String.eqb Ascii.eqb Bool.eqb andb]; rewrite ?andb_false_r; reflexivity.

(** X16: an optional filter is in the request exactly when it is configured
    and not empty, and then with the configured value: [keyword] and [query]
    as they are, [sourceUri] and [categoryUri] as the list of their parts;
    [lang] is sent unless it is empty. *)
Theorem build_payload_optional_filters (args : Args) (more : Filters) (page : Z) :
  let payload := build_payload args more page in
  (In "keyword" (map fst payload) <-> given (keyword more) = true)
  /\ (In "query" (map fst payload) <-> given (query more) = true)
  /\ (In "sourceUri" (map fst payload) <-> given (source_uri more) = true)
  /\ (In "categoryUri" (map fst payload) <-> given (category_uri more) = true)
  /\ (In "lang" (map fst payload) <-> lang args <> "")
  /\ (given (keyword more) = true -> dict_get payload "keyword" = opt_json (keyword more))
  /\ (given (query more) = true -> dict_get payload "query" = opt_json (query more))
  /\ (given (source_uri more) = true ->
      dict_get payload "sourceUri" = uri_list (source_uri more))
  /\ (given (category_uri more) = true ->
      dict_get payload "categoryUri" = uri_list (category_uri more))
  /\ (lang args <> "" -> dict_get payload "lang" = JStr (lang args)).
Proof.
  cbv zeta. rewrite build_payload_steps.
  assert (Hlang : negb (String.eqb (lang args) "") = true <-> lang args <> "").
  { rewrite negb_true_iff. apply String.eqb_neq. }
  assert (Hbase : forall k, In k ["keyword"; "query"; "sourceUri"; "categoryUri"; "lang"] ->
                            ~ In k (map fst (payload_base args more page))).
  { intros k Hk Hin. unfold payload_base in Hin. cbn [map fst In] in Hin, Hk.
    repeat (destruct Hk as [<-|Hk]; [intuition discriminate|]). exact Hk. }
  split; [key_present Hbase|]. split; [key_present Hbase|].
  split; [key_present Hbase|]. split; [key_present Hbase|].
  split; [rewrite <- Hlang; key_present Hbase|].
  split; [intros H; key_value H|]. split; [intros H; key_value H|].
  split; [intros H; key_value H|]. split; [intros H; key_value H|].
  intros H. apply Hlang in H. key_value H.
Qed.

(** ** The parts of a URI filter *)

Lemma rstrip_idem (s : string) : rstrip (rstrip s) = rstrip s.
Proof.
  induction s as [|c s IH]; [reflexivity|].
  cbn [rstrip]. destruct (rstrip s) as [|c' kept] eqn:Hs.
  - destruct (is_space c) eqn:Hc; [reflexivity|]. cbn [rstrip]. now rewrite Hc.
  - cbn [rstrip]. cbn [rstrip] in IH. rewrite IH. reflexivity.
Qed.

Lemma lstrip_rstrip_lstrip (s : string) : lstrip (rstrip (lstrip s)) = rstrip (lstrip s).
Proof.
  induction s as [|c s IH]; [reflexivity|].
  cbn [lstrip]. destruct (is_space c) eqn:Hc; [exact IH|].
  cbn [rstrip]. destruct (rstrip s); rewrite ?Hc; cbn [lstrip]; now rewrite Hc.
Qed.

Lemma strip_idem (s : string) : strip (strip s) = strip s.
Proof.
  unfold strip. now rewrite lstrip_rstrip_lstrip, rstrip_idem.
Qed.

Lemma lstrip_chars (s : string) (c : ascii) : In c (chars (lstrip s)) -> In c (chars s).
Proof.
  unfold chars. induction s as [|c0 s IH]; [auto|].
  cbn [lstrip]. destruct (is_space c0); [|auto].
  intros H. right. fold list_ascii_of_string. auto.
Qed.

Lemma rstrip_chars (s : string) (c : ascii) : In c (chars (rstrip s)) -> In c (chars s).
Proof.
  unfold chars. induction s as [|c0 s IH]; [auto|].
  cbn [rstrip]. destruct (rstrip s) as [|c' kept].
  - destruct (is_space c0); [intros []|]. intros [<-|[]]. now left.
  - intros [<-|H]; [now left|]. right. fold list_ascii_of_string. auto.
Qed.

Lemma split_chars (sep : ascii) (s : string) :
  forall piece c, In piece (split sep s) -> In c (chars piece) -> In c (chars s) /\ c <> sep.
Proof.
  unfold chars. induction s as [|c0 s IH]; intros piece c.
  - intros [<-|[]] [].
  - cbn [split]. destruct (Ascii.eqb c0 sep) eqn:Hsep.
    + intros [<-|Hin] Hc; [destruct Hc|].
      destruct (IH piece c Hin Hc) as [H1 H2]. split; [right; exact H1 | exact H2].
    + apply Ascii.eqb_neq in Hsep.
      destruct (split sep s) as [|p0 ps] eqn:Hsplit.
      * intros [<-|[]] [<-|[]]. split; [now left | auto].
      * intros [<-|Hin] Hc.
        -- destruct Hc as [<-|Hc]; [split; [now left | auto]|].
           destruct (IH p0 c (or_introl eq_refl) Hc) as [H1 H2].
           split; [right; exact H1 | exact H2].
        -- destruct (IH piece c (or_intror Hin) Hc) as [H1 H2].
           split; [right; exact H1 | exact H2].
Qed.

Lemma lstrip_blank (s : string) :
  (forall c, In c (chars s) -> is_space c = true) -> lstrip s = "".
Proof.
  unfold chars. induction s as [|c0 s IH]; intros Hall; [reflexivity|].
  cbn [lstrip]. rewrite (Hall c0 (or_introl eq_refl)). apply IH.
  intros c Hc. apply Hall. now right.
Qed.

(** X17: what a comma-separated filter is sent as: every part of the list
    is non-empty, has no white space at either end and holds no comma; a
    filter made of commas and white space only, though configured, gives the
    empty list. *)
Theorem split_filter_clean (value : string) :
  Forall (fun part => part <> "" /\ strip part = part /\ ~ In ","%char (chars part))
    (split_filter value)
  /\ ((forall c, In c (chars value) -> c = ","%char \/ is_space c = true) ->
      split_filter value = []).
Proof.
  unfold split_filter. split.
  - apply Forall_forall. intros part Hin.
    apply in_map_iff in Hin. destruct Hin as (piece & <- & Hin).
    apply filter_In in Hin. destruct Hin as [Hpiece Hne].
    split; [|split].
    + intros Heq. rewrite Heq in Hne. discriminate.
    + apply strip_idem.
    + intros Hc. unfold strip in Hc. apply rstrip_chars, lstrip_chars in Hc.
      destruct (split_chars _ _ _ _ Hpiece Hc) as [_ Hneq]. now apply Hneq.
  - intros Hall.
    assert (Hnone : filter (fun piece => negb (String.eqb (strip piece) ""))
                      (split "," value) = []).
    { assert (Hblank : forall piece, In piece (split "," value) -> strip piece = "").
      { intros piece Hin. unfold strip. rewrite (lstrip_blank piece); [reflexivity|].
        intros c Hc. destruct (split_chars _ _ _ _ Hin Hc) as [H1 H2].
        destruct (Hall c H1) as [->|Hs]; [contradiction | exact Hs]. }
      revert Hblank. generalize (split "," value) as pieces.
      induction pieces as [|piece pieces IH]; intros Hblank; [reflexivity|].
      cbn [filter]. rewrite (Hblank piece (or_introl eq_refl)). cbn [String.eqb negb].
      apply IH. intros x Hx. apply Hblank. now right. }
    now rewrite Hnone.
Qed.

(** * The converter *)













(** * Instances of the further properties *)

Lemma request_page_within_budget_witness :
  exists j,
    Z.of_nat j < 5
    /\ posts (snd (request_page world_503 5 initial)) = (posts initial + S j)%nat
    /\ slept (snd (request_page world_503 5 initial))
       = slept initial ++ map (fun i => inject_Z (Z.min 60 (2 ^ i))) (range (Z.of_nat j)).
Proof.
  apply (request_page_within_budget world_503 5 initial). lia.
Defined.

Lemma request_page_surfaces_transport_error_witness :
  request_page world_down 5 initial
  = (Raise (RequestException "timeout"), mkState 5 1 [1; 2; 4; 8]%Q [] [] []).
Proof.
  refine (request_page_surfaces_transport_error world_down 5 initial "timeout" _ _ _).
  - lia.
  - intros i Hi. reflexivity.
  - reflexivity.
Defined.

Lemma extract_tags_no_empty_tag_witness :
  Forall (fun label => label <> "") ["Economy"; "Business"].
Proof.
  refine (proj1 (extract_tags_no_empty_tag repr_opaque "eng"
                   [("concepts", JList [JStr "Economy"]);
                    ("categories", JList [JStr "Business"])]
                   ["Economy"; "Business"] _)).
  reflexivity.
Defined.

Lemma flat_record_cells_witness :
  List.length [JStr ""; JStr ""; JStr ""; JStr ""; JStr "Economy; Business"] = 5%nat
  /\ Forall (fun cell => truthy cell = true \/ cell = JStr "")
       [JStr ""; JStr ""; JStr ""; JStr ""; JStr "Economy; Business"].
Proof.
  apply (flat_record_cells repr_opaque "eng" article_economy). reflexivity.
Defined.

Lemma pages_loop_appends_rows_witness :
  exists out new,
    pages_loop repr_opaque world_total_zero 2 args_unlimited 1 0 initial = Some out
    /\ rows (snd out) = rows initial ++ new
    /\ Forall (fun r => List.length r = 5%nat) new
    /\ (forall n, fst out = Ok n -> n = 0 + Z.of_nat (List.length new)).
Proof.
  destruct (pages_loop repr_opaque world_total_zero 2 args_unlimited 1 0 initial)
    as [out|] eqn:Hrun; [|discriminate Hrun].
  destruct (pages_loop_appends_rows repr_opaque world_total_zero args_unlimited 2 1 0
              initial out Hrun) as (new & Hrows & Hwidth & Hcount).
  exists out, new. auto.
Defined.

Lemma pages_loop_post_budget_witness :
  exists out,
    pages_loop repr_opaque world_503 1 args_unlimited 1 0 initial = Some out
    /\ (fetches initial < fetches (snd out) <= fetches initial + 1)%nat
    /\ (posts (snd out) - posts initial <= 5 * (fetches (snd out) - fetches initial))%nat.
Proof.
  destruct (pages_loop repr_opaque world_503 1 args_unlimited 1 0 initial)
    as [out|] eqn:Hrun; [|discriminate Hrun].
  exists out. split; [reflexivity|].
  apply (pages_loop_post_budget repr_opaque world_503 args_unlimited 1 1 0 initial out Hrun).
Defined.

Lemma max_pages_caps_fetches_witness :
  exists out,
    pages_loop repr_opaque world_endless (Z.to_nat (Z.max 1 (max_pages args_capped)))
      args_capped 1 0 initial = Some out
    /\ (fetches (snd out)
        <= fetches initial + Z.to_nat (Z.max 1 (max_pages args_capped)))%nat.
Proof.
  apply (max_pages_caps_fetches repr_opaque world_endless args_capped 0 initial).
  discriminate.
Defined.

Lemma payload_without_articles_witness :
  pages_loop repr_opaque world_error_object 1 args_unlimited 1 0 initial
  = Some (Ok 0, mkState 1 1 [] [] [] []).
Proof.
  refine (proj1 (payload_without_articles repr_opaque world_error_object args_unlimited
                   0 1 0 initial (mkState 1 1 [] [] [] [])
                   (JDict [("error", JStr "No results")]) _) _ eq_refl eq_refl).
  reflexivity.
Defined.

Lemma main_aborts_before_network_witness :
  exists e s',
    main repr_opaque iso_ordinal world_437 args_no_key 739924 3 initial = Some (Raise e, s')
    /\ posts s' = 0%nat /\ fetches s' = 0%nat /\ rows s' = [] /\ stdout s' = [].
Proof.
  apply (main_aborts_before_network repr_opaque iso_ordinal world_437 args_no_key 739924 3).
  left. reflexivity.
Defined.





